(** * SMSNotifier: liveness monitoring and PushPlus notification

    A shallow embedding of [main.py] (class [SMSNotifier]) and the
    properties of its failure aggregation, notification gate, delivery
    client and administrative command handlers.

    Conventions of the embedding.
    - Python [str] values are UTF-8 byte strings.  Substring tests and
      prefix tests on valid UTF-8 agree with Python's tests on code
      points.  [lower], [strip], [split] and the identifier pattern act on
      the ASCII range; code points outside ASCII are treated as caseless,
      non-blank and non-word characters.
    - Times are the values of [time.time()], taken as integers (seconds).
    - A dict that is only looked up by key is a [gmap]; [self.users], which
      the code iterates, is an insertion-ordered association list.
    - [async] methods are state transformers over a [World]: the plugin
      object, the closure variables of the running status task, and the
      trace of the calls made to the outside (HTTP posts, sleeps, chat
      replies).  One call of a method runs without interleaving. *)

From Stdlib Require Import ZArith Lia Bool List Ascii String.
From stdpp Require Import gmap strings list.
Import ListNotations.

Open Scope string_scope.
Open Scope Z_scope.

(** ** Text primitives *)

Module Text.

(** [str.isspace] on one ASCII character: TAB..CR, FS..US and the space. *)
Definition is_space (c : ascii) : bool :=
  let n := Z.of_nat (nat_of_ascii c) in
  ((9 <=? n) && (n <=? 13)) || ((28 <=? n) && (n <=? 32)).

(** [\w] on one ASCII character: letters, digits and the underscore. *)
Definition is_word (c : ascii) : bool :=
  let n := Z.of_nat (nat_of_ascii c) in
  ((48 <=? n) && (n <=? 57)) || ((65 <=? n) && (n <=? 90))
  || ((97 <=? n) && (n <=? 122)) || (n =? 95).

Definition lower_char (c : ascii) : ascii :=
  let n := nat_of_ascii c in
  if ((65 <=? n) && (n <=? 90))%nat then ascii_of_nat (n + 32) else c.

(** [s.lower()] *)
Fixpoint lower (s : string) : string :=
  match s with
  | EmptyString => EmptyString
  | String c r => String (lower_char c) (lower r)
  end.

(** [s.lstrip()] *)
Fixpoint lstrip (s : string) : string :=
  match s with
  | EmptyString => EmptyString
  | String c r => if is_space c then lstrip r else s
  end.

(** [s.rstrip()] *)
Fixpoint rstrip (s : string) : string :=
  match s with
  | EmptyString => EmptyString
  | String c r =>
      match rstrip r with
      | EmptyString => if is_space c then EmptyString else String c EmptyString
      | r' => String c r'
      end
  end.

(** [s.strip()] *)
Definition strip (s : string) : string := rstrip (lstrip s).

(** [s.startswith(p)] *)
Definition startswith (p s : string) : bool := String.prefix p s.

(** [sub in s] *)
Fixpoint contains (sub s : string) : bool :=
  String.prefix sub s
  || match s with
     | EmptyString => false
     | String _ r => contains sub r
     end.

Definition is_empty (s : string) : bool :=
  match s with EmptyString => true | _ => false end.

(** [s.split()]: the maximal runs of non-blank characters, in order.
    [cur] is the run being read. *)
Fixpoint split_from (cur s : string) : list string :=
  match s with
  | EmptyString => if is_empty cur then [] else [cur]
  | String c r =>
      if is_space c
      then (if is_empty cur then split_from EmptyString r
            else cur :: split_from EmptyString r)
      else split_from (cur ++ String c EmptyString) r
  end.

Definition split (s : string) : list string := split_from EmptyString s.

(** [s.split(maxsplit=k)]: at most [k] leading runs are cut off; what is
    left, without its leading blanks, is the last element. *)
Fixpoint split_max_from (k : nat) (cur s : string) : list string :=
  match k with
  | O => match lstrip s with EmptyString => [] | rest => [rest] end
  | S k' =>
      match s with
      | EmptyString => if is_empty cur then [] else [cur]
      | String c r =>
          if is_space c
          then (if is_empty cur then split_max_from k EmptyString r
                else cur :: split_max_from k' EmptyString r)
          else split_max_from k (cur ++ String c EmptyString) r
      end
  end.

Definition split_max (k : nat) (s : string) : list string :=
  split_max_from k EmptyString s.

(** The longest prefix of word characters. *)
Fixpoint take_word (s : string) : string :=
  match s with
  | EmptyString => EmptyString
  | String c r => if is_word c then String c (take_word r) else EmptyString
  end.

Fixpoint drop (n : nat) (s : string) : string :=
  match n, s with
  | O, _ => s
  | S _, EmptyString => EmptyString
  | S k, String _ r => drop k r
  end.

(** [re.search(r'wxid_\w+', s)]: the leftmost [wxid_] that is followed by
    a word character, with the longest run of word characters after it;
    [None] when the pattern does not occur. *)
Fixpoint re_search_wxid (s : string) : option string :=
  match s with
  | EmptyString => None
  | String _ r =>
      if String.prefix "wxid_" s
      then match take_word (drop 5 s) with
           | EmptyString => re_search_wxid r
           | w => Some ("wxid_" ++ w)
           end
      else re_search_wxid r
  end.


End Text.

(** ** The outside world: PushPlus, the status endpoint, the chat *)

(** The value under ["msg"] of a PushPlus reply. *)
Inductive json_msg :=
| MsgAbsent                 (* no such key: [result.get('msg', '')] is [''] *)
| MsgText (s : string)
| MsgNotText.               (* null, a number, ...: [.lower()] raises *)

(** What one [session.post(url, json=data)] followed by
    [response.json()] gives. *)
Inductive push_response :=
| PushRaises                                  (* any exception in the [try] *)
| PushJson (code : option Z) (msg : json_msg). (* a JSON object; [code] is the
                                                 number under ["code"], if any *)

(** What one [session.get(.../IsRunning, timeout=5)] gives. *)
Inductive poll_response :=
| PollRaises                                  (* transport error or timeout *)
| PollHttp (status : Z) (body : string).

(** A template instantiated by [_format_message_template] at [wxid]; the
    text depends on the wall clock and is kept symbolic. *)
Record rendered := { r_template : string; r_wxid : string }.

(** The JSON body of a post to [http://www.pushplus.plus/send]. *)
Record payload := {
  p_token : string;
  p_title : rendered;
  p_content : rendered;
  p_template : string;
  p_channel : string;
  p_to : option string;
  p_topic : option string
}.

(** The status report of [sms_status], before it is laid out as text. *)
Record status_report := {
  sr_enabled : bool;
  sr_channel : string;
  sr_users : nat;
  sr_offline : nat;
  sr_notified : nat;
  sr_offline_list : list (string * option Z)
}.

Inductive chat_text :=
| Plain (s : string)
| StatusText (r : status_report)
| Preview (r : rendered).

(** Which method posts: the offline notice of
    [_send_pushplus_notification] or the test notice of
    [_send_test_message]. *)
Inductive notice :=
| OfflineNotice
| TestNotice.

Inductive io_event :=
| Post (k : notice) (p : payload) (r : push_response)  (* an HTTP post and its outcome *)
| Sleep (secs : Z)                         (* [asyncio.sleep] *)
| SendText (to : string) (text : chat_text)  (* [bot.send_text_message] *)
| AppendLog (tag : string)                 (* a line added to heartbeat_errors.txt *)
| SaveTemplates                            (* [_save_message_templates] *)
| SaveWxid (wxid : string).                (* rewrite of [config.toml] *)

(** [config.toml] as [_load_config] sees it. *)
Record config_toml := {
  c_enable : bool;
  c_debug : bool;
  c_current_wxid : string;
  c_token : string;
  c_channel : string;
  c_template : string;
  c_topic : string;
  c_check_interval : Z;
  c_retry_times : Z;
  c_retry_interval : Z;
  c_heartbeat_threshold : Z;
  c_title_template : option string;
  c_test_title_template : option string;
  c_content_template : string;       (* [_format_notification_template] of the texts *)
  c_test_content_template : string   (* [_format_test_template] of the texts *)
}.

Inductive config_file :=
| ConfigMissing
| ConfigUnreadable
| ConfigParsed (c : config_toml).

(** What the code reads from outside during one call. *)
Record Env := {
  push_api : nat -> push_response;     (* the reply to the n-th post *)
  admins : option (list string);       (* [XYBot.admins] of main_config.toml;
                                          [None] when the file cannot be read *)
  config : config_file
}.

(** ** The plugin object *)

Record Plugin := {
  enable : bool;
  debug : bool;
  bot : option string;                 (* [self.bot], once a handler has run *)
  pushplus_token : string;
  pushplus_channel : string;
  pushplus_template : string;
  pushplus_topic : string;
  check_interval : Z;
  retry_times : Z;
  retry_interval : Z;
  heartbeat_threshold : Z;
  users : list (string * string);      (* wxid -> receiver, insertion order *)
  current_wxid : string;
  offline_users : gset string;
  notification_sent : gmap string Z;
  heartbeat_failures : gmap string (list Z);
  title_template : string;
  content_template : string;
  test_title_template : string;
  test_content_template : string;
  check_task : bool
}.

(** The plugin together with the closure variables of
    [_check_api_heartbeat] and the calls made so far. *)
Record World := {
  self : Plugin;
  failure_count : gmap string (list Z);
  last_notification_time : gmap string Z;
  trace : list io_event
}.

(** The framework's message dict as the handlers read it. *)
Record message := {
  MsgType : Z;
  FromWxid : string;
  ToWxid : string;          (* [""] when the key is absent *)
  SenderWxid : string;
  Content : string;
  as_str : string           (* [str(message)], the repr of the whole dict *)
}.

(** How a handler ends. *)
Inductive outcome :=
| Returned
| RaisedIndexError.

(** ** [self.users]: an insertion-ordered dict *)

Module Dict.

Fixpoint get {V} (k : string) (d : list (string * V)) : option V :=
  match d with
  | [] => None
  | (k', v) :: r => if String.eqb k k' then Some v else get k r
  end.

(** [k in d] *)
Definition mem {V} (k : string) (d : list (string * V)) : bool :=
  match get k d with Some _ => true | None => false end.

(** [d[k] = v]: an existing key keeps its place. *)
Fixpoint set {V} (k : string) (v : V) (d : list (string * V)) : list (string * V) :=
  match d with
  | [] => [(k, v)]
  | (k', v') :: r => if String.eqb k k' then (k, v) :: r else (k', v') :: set k v r
  end.

(** [del d[k]]; a dict holds a key once, the entry is dropped wherever
    it is. *)
Fixpoint del {V} (k : string) (d : list (string * V)) : list (string * V) :=
  match d with
  | [] => []
  | (k', v') :: r => if String.eqb k k' then del k r else (k', v') :: del k r
  end.

Definition keys {V} (d : list (string * V)) : list string := map fst d.

End Dict.

(** ** Field updates *)

Definition set_bot (b : option string) (s : Plugin) : Plugin :=
  Build_Plugin (enable s) (debug s) b (pushplus_token s) (pushplus_channel s)
    (pushplus_template s) (pushplus_topic s) (check_interval s) (retry_times s)
    (retry_interval s) (heartbeat_threshold s) (users s) (current_wxid s)
    (offline_users s) (notification_sent s) (heartbeat_failures s)
    (title_template s) (content_template s) (test_title_template s)
    (test_content_template s) (check_task s).

Definition set_pushplus_channel (c : string) (s : Plugin) : Plugin :=
  Build_Plugin (enable s) (debug s) (bot s) (pushplus_token s) c
    (pushplus_template s) (pushplus_topic s) (check_interval s) (retry_times s)
    (retry_interval s) (heartbeat_threshold s) (users s) (current_wxid s)
    (offline_users s) (notification_sent s) (heartbeat_failures s)
    (title_template s) (content_template s) (test_title_template s)
    (test_content_template s) (check_task s).

Definition set_users (u : list (string * string)) (s : Plugin) : Plugin :=
  Build_Plugin (enable s) (debug s) (bot s) (pushplus_token s) (pushplus_channel s)
    (pushplus_template s) (pushplus_topic s) (check_interval s) (retry_times s)
    (retry_interval s) (heartbeat_threshold s) u (current_wxid s)
    (offline_users s) (notification_sent s) (heartbeat_failures s)
    (title_template s) (content_template s) (test_title_template s)
    (test_content_template s) (check_task s).

Definition set_current_wxid (x : string) (s : Plugin) : Plugin :=
  Build_Plugin (enable s) (debug s) (bot s) (pushplus_token s) (pushplus_channel s)
    (pushplus_template s) (pushplus_topic s) (check_interval s) (retry_times s)
    (retry_interval s) (heartbeat_threshold s) (users s) x
    (offline_users s) (notification_sent s) (heartbeat_failures s)
    (title_template s) (content_template s) (test_title_template s)
    (test_content_template s) (check_task s).

Definition set_offline_users (o : gset string) (s : Plugin) : Plugin :=
  Build_Plugin (enable s) (debug s) (bot s) (pushplus_token s) (pushplus_channel s)
    (pushplus_template s) (pushplus_topic s) (check_interval s) (retry_times s)
    (retry_interval s) (heartbeat_threshold s) (users s) (current_wxid s)
    o (notification_sent s) (heartbeat_failures s)
    (title_template s) (content_template s) (test_title_template s)
    (test_content_template s) (check_task s).

Definition set_title_template (t : string) (s : Plugin) : Plugin :=
  Build_Plugin (enable s) (debug s) (bot s) (pushplus_token s) (pushplus_channel s)
    (pushplus_template s) (pushplus_topic s) (check_interval s) (retry_times s)
    (retry_interval s) (heartbeat_threshold s) (users s) (current_wxid s)
    (offline_users s) (notification_sent s) (heartbeat_failures s)
    t (content_template s) (test_title_template s)
    (test_content_template s) (check_task s).

Definition set_content_template (t : string) (s : Plugin) : Plugin :=
  Build_Plugin (enable s) (debug s) (bot s) (pushplus_token s) (pushplus_channel s)
    (pushplus_template s) (pushplus_topic s) (check_interval s) (retry_times s)
    (retry_interval s) (heartbeat_threshold s) (users s) (current_wxid s)
    (offline_users s) (notification_sent s) (heartbeat_failures s)
    (title_template s) t (test_title_template s)
    (test_content_template s) (check_task s).

Definition set_test_title_template (t : string) (s : Plugin) : Plugin :=
  Build_Plugin (enable s) (debug s) (bot s) (pushplus_token s) (pushplus_channel s)
    (pushplus_template s) (pushplus_topic s) (check_interval s) (retry_times s)
    (retry_interval s) (heartbeat_threshold s) (users s) (current_wxid s)
    (offline_users s) (notification_sent s) (heartbeat_failures s)
    (title_template s) (content_template s) t
    (test_content_template s) (check_task s).

Definition set_test_content_template (t : string) (s : Plugin) : Plugin :=
  Build_Plugin (enable s) (debug s) (bot s) (pushplus_token s) (pushplus_channel s)
    (pushplus_template s) (pushplus_topic s) (check_interval s) (retry_times s)
    (retry_interval s) (heartbeat_threshold s) (users s) (current_wxid s)
    (offline_users s) (notification_sent s) (heartbeat_failures s)
    (title_template s) (content_template s) (test_title_template s)
    t (check_task s).

Definition set_notification_sent (n : gmap string Z) (s : Plugin) : Plugin :=
  Build_Plugin (enable s) (debug s) (bot s) (pushplus_token s) (pushplus_channel s)
    (pushplus_template s) (pushplus_topic s) (check_interval s) (retry_times s)
    (retry_interval s) (heartbeat_threshold s) (users s) (current_wxid s)
    (offline_users s) n (heartbeat_failures s)
    (title_template s) (content_template s) (test_title_template s)
    (test_content_template s) (check_task s).

Definition set_check_task (t : bool) (s : Plugin) : Plugin :=
  Build_Plugin (enable s) (debug s) (bot s) (pushplus_token s) (pushplus_channel s)
    (pushplus_template s) (pushplus_topic s) (check_interval s) (retry_times s)
    (retry_interval s) (heartbeat_threshold s) (users s) (current_wxid s)
    (offline_users s) (notification_sent s) (heartbeat_failures s)
    (title_template s) (content_template s) (test_title_template s)
    (test_content_template s) t.

Definition with_self (s : Plugin) (w : World) : World :=
  Build_World s (failure_count w) (last_notification_time w) (trace w).

Definition with_failure_count (f : gmap string (list Z)) (w : World) : World :=
  Build_World (self w) f (last_notification_time w) (trace w).

Definition with_last_notification_time (l : gmap string Z) (w : World) : World :=
  Build_World (self w) (failure_count w) l (trace w).

Definition with_trace (t : list io_event) (w : World) : World :=
  Build_World (self w) (failure_count w) (last_notification_time w) t.

(** ** Sequencing: a state monad over [World] *)

Definition M (A : Type) : Type := World -> A * World.

Definition ret {A} (a : A) : M A := fun w => (a, w).

Definition bind {A B} (m : M A) (k : A -> M B) : M B :=
  fun w => let '(a, w') := m w in k a w'.

Notation "x <- m ;; k" := (bind m (fun x => k))
  (at level 100, m at next level, right associativity).
Notation "m ;;; k" := (bind m (fun _ => k))
  (at level 100, right associativity).

Definition get_self : M Plugin := fun w => (self w, w).

Definition modify_self (f : Plugin -> Plugin) : M unit :=
  fun w => (tt, with_self (f (self w)) w).

Definition emit (e : io_event) : M unit :=
  fun w => (tt, with_trace (trace w ++ [e]) w).

(** [bot.send_text_message(message["FromWxid"], text)] *)
Definition send_text_message (to : string) (text : chat_text) : M unit :=
  emit (SendText to text).

Definition is_post (e : io_event) : bool :=
  match e with Post _ _ _ => true | _ => false end.

(** The number of posts made so far: the index of the next reply. *)
Definition count_posts (t : list io_event) : nat :=
  length (List.filter is_post t).

(** ** [is_admin] *)

(** [wxid in admins]; when main_config.toml is missing or unreadable the
    method returns [None], which the callers' [not] treats as false. *)
Definition is_admin (E : Env) (wxid : string) : bool :=
  match admins E with
  | Some l => bool_decide (wxid ∈ l)
  | None => false
  end.

(** ** Delivery: [_send_pushplus_notification] *)

Inductive verdict :=
| Delivered        (* [result.get('code') == 200]: return True *)
| TokenRejected    (* the token error message: return False at once *)
| Retry.           (* anything else, and any exception: go on in the loop *)

(** ["token" in error_msg.lower() and "用户" in error_msg] *)
Definition is_token_error (error_msg : string) : bool :=
  Text.contains "token" (Text.lower error_msg) && Text.contains "用户" error_msg.

(** [result.get('code') == 200] *)
Definition code_is_200 (r : push_response) : bool :=
  match r with
  | PushJson (Some code) _ => code =? 200
  | _ => false
  end.

Definition classify (r : push_response) : verdict :=
  match r with
  | PushRaises => Retry
  | PushJson _ msg =>
      if code_is_200 r then Delivered
      else
        match msg with
        | MsgAbsent => if is_token_error "" then TokenRejected else Retry
        | MsgText error_msg => if is_token_error error_msg then TokenRejected else Retry
        | MsgNotText => Retry
        end
  end.

(** [range(n)] *)
Definition range (n : Z) : list nat := seq 0 (Z.to_nat n).

(** The body of [for retry in range(self.retry_times)], with [resp i] the
    reply to the i-th attempt of this call; returns the result of the
    method and the calls made. *)
Fixpoint push_attempts (resp : nat -> push_response) (p : payload)
    (times interval : Z) (retries : list nat) : bool * list io_event :=
  match retries with
  | [] => (false, [])
  | retry :: rest =>
      let r := resp retry in
      match classify r with
      | Delivered => (true, [Post OfflineNotice p r])
      | TokenRejected => (false, [Post OfflineNotice p r])
      | Retry =>
          let pause :=
            if Z.of_nat retry <? times - 1 then [Sleep interval] else [] in
          let '(ok, evs) := push_attempts resp p times interval rest in
          (ok, Post OfflineNotice p r :: pause ++ evs)
      end
  end.

Definition optional (s : string) : option string :=
  if Text.is_empty s then None else Some s.

(** The [data] dict of [_send_pushplus_notification]; its [to] argument
    is not put into the request. *)
Definition notification_payload (s : Plugin) (wxid : string) : payload :=
  {| p_token := pushplus_token s;
     p_title := {| r_template := title_template s; r_wxid := wxid |};
     p_content := {| r_template := content_template s; r_wxid := wxid |};
     p_template := pushplus_template s;
     p_channel := pushplus_channel s;
     p_to := None;
     p_topic := optional (pushplus_topic s) |}.

Definition send_pushplus_notification (E : Env) (wxid to : string) : M bool :=
  fun w =>
    let s := self w in
    if Text.is_empty (pushplus_token s) then (false, w)
    else
      let n0 := count_posts (trace w) in
      let '(ok, evs) :=
        push_attempts (fun i => push_api E (n0 + i)%nat)
          (notification_payload s wxid)
          (retry_times s) (retry_interval s) (range (retry_times s)) in
      (ok, with_trace (trace w ++ evs) w).

(** [_send_sms_notification] *)
Definition send_sms_notification (E : Env) (wxid to : string) : M bool :=
  send_pushplus_notification E wxid to.

(** ** The manual test path: [_send_test_message] *)

Definition test_payload (s : Plugin) (wxid : string) : payload :=
  let to := default "" (Dict.get wxid (users s)) in
  {| p_token := pushplus_token s;
     p_title := {| r_template := test_title_template s; r_wxid := wxid |};
     p_content := {| r_template := test_content_template s; r_wxid := wxid |};
     p_template := pushplus_template s;
     p_channel := pushplus_channel s;
     p_to := if negb (Text.is_empty to) && String.eqb (pushplus_channel s) "wechat"
             then Some to else None;
     p_topic := optional (pushplus_topic s) |}.

Definition send_test_message (E : Env) (wxid : string) : M bool :=
  fun w =>
    let r := push_api E (count_posts (trace w)) in
    (code_is_200 r, with_trace (trace w ++ [Post TestNotice (test_payload (self w) wxid) r]) w).

(** ** Passive and active failure signals *)

(** [_process_heartbeat_failure] *)
Definition process_heartbeat_failure (E : Env) (wxid : string) : M unit :=
  s <- get_self ;;
  if Dict.mem wxid (users s)
  then (success <- send_pushplus_notification E wxid "" ;; ret tt)
  else ret tt.

(** [_send_heartbeat_notification]: the attempt is recorded also when no
    token is configured. *)
Definition send_heartbeat_notification (E : Env) (now : Z) (wxid to : string) : M bool :=
  s <- get_self ;;
  if Text.is_empty (pushplus_token s)
  then (modify_self (fun s =>
          set_notification_sent (<[wxid := now]> (notification_sent s)) s) ;;;
        ret false)
  else
    success <- send_pushplus_notification E wxid to ;;
    if success
    then (modify_self (fun s =>
            set_notification_sent (<[wxid := now]> (notification_sent s)) s) ;;;
          ret true)
    else ret false.

(** *** The log-driven aggregator: [heartbeat_failure_callback] *)

(** The record of [wxid] after [append(current_time)] and the pruning
    list comprehension [[t for t in ... if current_time - t <= 300]]. *)
Definition record_failure (now : Z) (old : list Z) : list Z :=
  List.filter (fun t => now - t <=? 300) (old ++ [now]).

(** [len(failure_count[wxid]) >= self.heartbeat_threshold] *)
Definition over_threshold (threshold : Z) (rec : list Z) : bool :=
  threshold <=? Z.of_nat (length rec).

(** [wxid not in last_notification_time or
     current_time - last_notification_time[wxid] >= 3600] *)
Definition resend_allowed (now : Z) (last : option Z) : bool :=
  match last with
  | None => true
  | Some t => 3600 <=? now - t
  end.

Definition heartbeat_failure_callback (E : Env) (now : Z) (wxid : string) : M unit :=
  fun w =>
    if negb (Dict.mem wxid (users (self w))) then (tt, w)
    else
      let rec := record_failure now (default [] (failure_count w !! wxid)) in
      let w1 := with_failure_count (<[wxid := rec]> (failure_count w)) w in
      if over_threshold (heartbeat_threshold (self w1)) rec
      then
        if resend_allowed now (last_notification_time w1 !! wxid)
        then
          let '(success, w2) := send_pushplus_notification E wxid "" w1 in
          if success
          then (tt, with_failure_count (<[wxid := []]> (failure_count w2))
                      (with_last_notification_time
                         (<[wxid := now]> (last_notification_time w2)) w2))
          else (tt, w2)
        else (tt, w1)
      else (tt, w1).


(** *** The status poll: the loop body of [_check_api_heartbeat] *)

(** The three results of a signal source (spec 4.1). *)
Inductive signal :=
| Healthy
| Failed
| Unknown.

(** The branches of the [try] around [session.get]: the [else] of
    [response.status == 200], and [result_text.strip().lower() != "ok"],
    lead to the notification loop; an exception leads to the [except]. *)
Definition api_status (r : poll_response) : signal :=
  match r with
  | PollRaises => Unknown
  | PollHttp status body =>
      if status =? 200
      then if String.eqb (Text.lower (Text.strip body)) "ok" then Healthy else Failed
      else Failed
  end.

(** [for wxid in self.users: if <gate>: await
    self._process_heartbeat_failure(wxid); last_notification_time[wxid] =
    current_time] *)
Fixpoint notify_users (E : Env) (now : Z) (wxids : list string) : M unit :=
  match wxids with
  | [] => ret tt
  | wxid :: rest =>
      fun w =>
        if resend_allowed now (last_notification_time w !! wxid)
        then
          let '(_, w1) := process_heartbeat_failure E wxid w in
          notify_users E now rest
            (with_last_notification_time
               (<[wxid := now]> (last_notification_time w1)) w1)
        else notify_users E now rest w
  end.

Definition api_heartbeat_iteration (E : Env) (r : poll_response) (now : Z) : M unit :=
  match api_status r with
  | Failed => fun w => notify_users E now (Dict.keys (users (self w))) w
  | Healthy | Unknown => ret tt
  end.

(** *** Passive text events: [capture_error_messages] *)

Definition when_some (o : option string) (f : string -> M unit) : M unit :=
  match o with
  | Some x => f x
  | None => ret tt
  end.

(** The only key of [self.users] when [len(self.users) == 1]. *)
Definition single_user (s : Plugin) : option string :=
  match users s with
  | [(wxid, _)] => Some wxid
  | _ => None
  end.

(** Forwarded log lines (MsgType 1 from admin, system or log): the
    [if wxid_match / elif ToWxid / elif current_wxid] chain. *)
Definition forwarded_log_target (s : Plugin) (m : message)
    (wxid_match : option string) : option string :=
  match wxid_match with
  | Some wxid => Some wxid
  | None =>
      if negb (Text.is_empty (ToWxid m)) && Text.contains "wxid_" (ToWxid m)
      then Some (ToWxid m)
      else optional (current_wxid s)
  end.

(** System messages (MsgType 10000): the
    [if wxid_match / elif current_wxid / elif len(self.users) == 1] chain. *)
Definition system_message_target (s : Plugin) (wxid_match : option string)
    : option string :=
  match wxid_match with
  | Some wxid => Some wxid
  | None =>
      if negb (Text.is_empty (current_wxid s)) then Some (current_wxid s)
      else single_user s
  end.

(** Offline hints in [Content]: [wxid_match] or else [current_wxid]. *)
Definition offline_hint_target (s : Plugin) (wxid_match : option string)
    : option string :=
  match wxid_match with
  | Some wxid => Some wxid
  | None => optional (current_wxid s)
  end.

(** Fetch failures in [str(message)]: no identifier is looked for; the
    [if current_wxid and current_wxid in users / elif len(users) == 1]
    chain. *)
Definition fetch_failure_target (s : Plugin) : option string :=
  if negb (Text.is_empty (current_wxid s)) && Dict.mem (current_wxid s) (users s)
  then Some (current_wxid s)
  else single_user s.

Definition forwarded_log_block (E : Env) (m : message) : M unit :=
  if (MsgType m =? 1)
     && bool_decide (FromWxid m ∈ ["admin"; "system"; "log"])
  then
    let content := Content m in
    if Text.contains "心跳失败" content || Text.contains "Heartbeat failed" content
       || Text.contains "用户可能退出" content
    then
      s <- get_self ;;
      when_some (forwarded_log_target s m (Text.re_search_wxid content))
        (process_heartbeat_failure E) ;;;
      emit (AppendLog "日志消息心跳失败")
    else ret tt
  else ret tt.

Definition system_message_block (E : Env) (m : message) : M unit :=
  if MsgType m =? 10000
  then
    let content := Content m in
    if Text.contains "用户可能退出" content || Text.contains "心跳失败" content
    then
      s <- get_self ;;
      when_some (system_message_target s (Text.re_search_wxid content))
        (process_heartbeat_failure E)
    else ret tt
  else ret tt.

Definition message_string_block (E : Env) (m : message) : M unit :=
  let msg_str := as_str m in
  if Text.contains "心跳失败" msg_str
     || Text.contains "heartbeat failed" (Text.lower msg_str)
     || Text.contains "用户可能退出" msg_str
  then
    emit (AppendLog "错误消息") ;;;
    match Text.re_search_wxid msg_str with
    | Some wxid =>
        s <- get_self ;;
        if Dict.mem wxid (users s) || String.eqb wxid (current_wxid s)
        then process_heartbeat_failure E wxid
        else ret tt
    | None => ret tt
    end
  else ret tt.

Definition offline_hint_block (E : Env) (m : message) : M unit :=
  let content_field := Content m in
  if Text.contains "已退出" content_field || Text.contains "离线" content_field
     || Text.contains "不在线" content_field || Text.contains "登录异常" content_field
  then
    emit (AppendLog "系统消息提示离线") ;;;
    s <- get_self ;;
    when_some (offline_hint_target s (Text.re_search_wxid content_field))
      (process_heartbeat_failure E)
  else ret tt.

Definition fetch_failure_block (E : Env) (m : message) : M unit :=
  let content := as_str m in
  if Text.contains "获取新消息失败" content || Text.contains "error" (Text.lower content)
  then
    emit (AppendLog "检测到消息失败") ;;;
    s <- get_self ;;
    when_some (fetch_failure_target s) (process_heartbeat_failure E)
  else ret tt.

Definition capture_error_messages (E : Env) (b : string) (m : message) : M bool :=
  modify_self (set_bot (Some b)) ;;;
  s <- get_self ;;
  if negb (enable s) then ret true
  else
    forwarded_log_block E m ;;;
    system_message_block E m ;;;
    message_string_block E m ;;;
    offline_hint_block E m ;;;
    fetch_failure_block E m ;;;
    ret true.

(** [capture_bot_id] *)
Definition capture_bot_id (b : string) (m : message) : M bool :=
  modify_self (set_bot (Some b)) ;;;
  s <- get_self ;;
  (if Text.is_empty (current_wxid s) && Text.startswith "wxid_" (SenderWxid m)
   then modify_self (fun s =>
          let s1 := set_current_wxid (SenderWxid m) s in
          set_users (Dict.set (current_wxid s1) "" (users s1)) s1)
   else ret tt) ;;;
  ret true.

(** ** Administrative commands *)

Definition rejection : chat_text := Plain "您没有权限执行此命令".

(** The line break of the multi-line replies. *)
Definition nl : string := String "010"%char EmptyString.

Definition channel_list : string := "支持的渠道: wechat, sms, mail, webhook, cp".

(** [_load_config]: the defaults, then the file if it can be read. *)
Definition load_config (E : Env) (s : Plugin) : Plugin :=
  let defaults :=
    Build_Plugin false false (bot s) (pushplus_token s) (pushplus_channel s)
      (pushplus_template s) (pushplus_topic s) (check_interval s) (retry_times s)
      (retry_interval s) (heartbeat_threshold s) [] ""
      (offline_users s) (notification_sent s) (heartbeat_failures s)
      "微信离线通知 - {time}" (content_template s) "测试通知 - {time}"
      (test_content_template s) (check_task s) in
  match config E with
  | ConfigMissing => defaults
  | ConfigUnreadable => defaults
  | ConfigParsed c =>
      Build_Plugin
        (c_enable c && negb (Text.is_empty (c_token c)))
        (c_debug c) (bot s) (c_token c) (c_channel c) (c_template c) (c_topic c)
        (c_check_interval c) (c_retry_times c) (c_retry_interval c)
        (c_heartbeat_threshold c)
        (if Text.is_empty (c_current_wxid c) then [] else [(c_current_wxid c, "")])
        (c_current_wxid c)
        (offline_users s) (notification_sent s) (heartbeat_failures s)
        (default "微信离线通知 - {time}" (c_title_template c))
        (c_content_template c)
        (default "测试通知 - {time}" (c_test_title_template c))
        (c_test_content_template c) (check_task s)
  end.

Definition handle_test_command (E : Env) (b : string) (m : message) : M outcome :=
  modify_self (set_bot (Some b)) ;;;
  s <- get_self ;;
  if negb (enable s) then ret Returned
  else
    let content := Text.strip (Content m) in
    if negb (Text.startswith "sms_test" content) then ret Returned
    else
      let sender := SenderWxid m in
      if negb (is_admin E sender)
      then (send_text_message (FromWxid m) rejection ;;; ret Returned)
      else
        (if Text.is_empty (current_wxid s)
         then modify_self (fun s =>
                let s1 := set_current_wxid sender s in
                set_users (Dict.set (current_wxid s1) "" (users s1)) s1)
         else ret tt) ;;;
        s <- get_self ;;
        let wxid := current_wxid s in
        if Text.is_empty wxid
        then (send_text_message (FromWxid m)
                (Plain "未能获取当前微信ID，请在配置文件中手动设置current_wxid") ;;;
              ret Returned)
        else
          success <- send_test_message E wxid ;;
          s <- get_self ;;
          (if success
           then send_text_message (FromWxid m)
                  (Plain ("测试通知已成功发送，wxid=" ++ wxid ++ "，渠道: "
                          ++ pushplus_channel s))
           else send_text_message (FromWxid m)
                  (Plain ("发送测试通知失败，wxid=" ++ wxid))) ;;;
          ret Returned.

Definition handle_set_wxid_command (E : Env) (b : string) (m : message) : M outcome :=
  modify_self (set_bot (Some b)) ;;;
  s <- get_self ;;
  if negb (enable s) then ret Returned
  else
    let content := Text.strip (Content m) in
    if negb (Text.startswith "sms_set_wxid " content) then ret Returned
    else
      let sender := SenderWxid m in
      if negb (is_admin E sender)
      then (send_text_message (FromWxid m) rejection ;;; ret Returned)
      else
        let parts := Text.split content in
        if (length parts <? 2)%nat
        then (send_text_message (FromWxid m) (Plain "用法: sms_set_wxid <wxid>") ;;;
              ret Returned)
        else
          match parts !! 1%nat with
          | None => ret RaisedIndexError
          | Some wxid =>
              let old_wxid := current_wxid s in
              modify_self (fun s =>
                let s1 := set_current_wxid wxid s in
                let u := if Dict.mem old_wxid (users s1)
                         then Dict.del old_wxid (users s1) else users s1 in
                set_users (Dict.set wxid "" u) s1) ;;;
              (match config E with
               | ConfigParsed _ => emit (SaveWxid wxid)
               | _ => ret tt
               end) ;;;
              send_text_message (FromWxid m)
                (Plain ("已成功将当前微信ID从 "
                        ++ (if Text.is_empty old_wxid then "未设置" else old_wxid)
                        ++ " 更改为 " ++ wxid)) ;;;
              send_text_message (FromWxid m) (Plain "正在发送测试通知...") ;;;
              success <- send_test_message E wxid ;;
              (if success
               then send_text_message (FromWxid m) (Plain "测试通知发送成功")
               else send_text_message (FromWxid m) (Plain "测试通知发送失败")) ;;;
              ret Returned
          end.

Definition handle_reload_command (E : Env) (b : string) (m : message) : M outcome :=
  modify_self (set_bot (Some b)) ;;;
  s <- get_self ;;
  if negb (enable s) then ret Returned
  else
    let content := Text.strip (Content m) in
    if negb (String.eqb content "sms_reload") then ret Returned
    else
      let sender := SenderWxid m in
      if negb (is_admin E sender)
      then (send_text_message (FromWxid m) rejection ;;; ret Returned)
      else
        let was_enabled := enable s in
        modify_self (load_config E) ;;;
        s <- get_self ;;
        (if was_enabled && negb (enable s)
         then (if check_task s then modify_self (set_check_task false) else ret tt)
         else if negb was_enabled && enable s
         then modify_self (set_check_task true)
         else ret tt) ;;;
        send_text_message (FromWxid m)
          (Plain ("SMSNotifier配置已重新加载，插件现在"
                  ++ (if enable s then "已启用" else "已禁用"))) ;;;
        ret Returned.

Definition handle_status_command (E : Env) (b : string) (m : message) : M outcome :=
  modify_self (set_bot (Some b)) ;;;
  s <- get_self ;;
  if negb (enable s) then ret Returned
  else
    let content := Text.strip (Content m) in
    if negb (String.eqb content "sms_status") then ret Returned
    else
      let sender := SenderWxid m in
      if negb (is_admin E sender)
      then (send_text_message (FromWxid m) rejection ;;; ret Returned)
      else
        send_text_message (FromWxid m)
          (StatusText
             {| sr_enabled := enable s;
                sr_channel := pushplus_channel s;
                sr_users := length (users s);
                sr_offline := size (offline_users s);
                sr_notified := size (notification_sent s);
                sr_offline_list :=
                  map (fun wxid => (wxid, notification_sent s !! wxid))
                      (elements (offline_users s)) |}) ;;;
        ret Returned.

Definition handle_monitor_command (E : Env) (b : string) (m : message) : M outcome :=
  modify_self (set_bot (Some b)) ;;;
  s <- get_self ;;
  if negb (enable s) then ret Returned
  else
    let content := Text.strip (Content m) in
    if negb (Text.startswith "sms_monitor " content) then ret Returned
    else
      let sender := SenderWxid m in
      if negb (is_admin E sender)
      then (send_text_message (FromWxid m) rejection ;;; ret Returned)
      else
        let parts := Text.split content in
        if (length parts <? 2)%nat
        then (send_text_message (FromWxid m) (Plain "用法: sms_monitor <wxid> <to>") ;;;
              ret Returned)
        else
          match parts !! 1%nat, parts !! 2%nat with
          | Some wxid, Some to =>
              if Dict.mem wxid (users s)
              then (send_text_message (FromWxid m)
                      (Plain ("用户 " ++ wxid ++ " 已存在于监控列表中")) ;;;
                    ret Returned)
              else
                modify_self (fun s => set_users (Dict.set wxid to (users s)) s) ;;;
                send_text_message (FromWxid m)
                  (Plain ("已成功将用户 " ++ wxid ++ " 添加到监控列表，使用接收者 "
                          ++ to ++ "，渠道: " ++ pushplus_channel s)) ;;;
                ret Returned
          | _, _ => ret RaisedIndexError
          end.

Definition valid_channels : list string := ["wechat"; "sms"; "mail"; "webhook"; "cp"].

Definition handle_channel_command (E : Env) (b : string) (m : message) : M outcome :=
  modify_self (set_bot (Some b)) ;;;
  s <- get_self ;;
  if negb (enable s) then ret Returned
  else
    let content := Text.strip (Content m) in
    if negb (Text.startswith "sms_channel " content) then ret Returned
    else
      let sender := SenderWxid m in
      if negb (is_admin E sender)
      then (send_text_message (FromWxid m) rejection ;;; ret Returned)
      else
        let parts := Text.split content in
        if (length parts <? 2)%nat
        then (send_text_message (FromWxid m)
                (Plain ("用法: sms_channel <channel>" ++ nl ++ channel_list)) ;;;
              ret Returned)
        else
          match parts !! 1%nat with
          | None => ret RaisedIndexError
          | Some channel =>
              let old_channel := pushplus_channel s in
              if negb (bool_decide (channel ∈ valid_channels))
              then (send_text_message (FromWxid m)
                      (Plain ("不支持的渠道: " ++ channel ++ nl ++ channel_list)) ;;;
                    ret Returned)
              else
                modify_self (set_pushplus_channel channel) ;;;
                send_text_message (FromWxid m)
                  (Plain ("已成功将通知渠道从 " ++ old_channel ++ " 更改为 "
                          ++ channel)) ;;;
                ret Returned
          end.

Definition handle_unmonitor_command (E : Env) (b : string) (m : message) : M outcome :=
  modify_self (set_bot (Some b)) ;;;
  s <- get_self ;;
  if negb (enable s) then ret Returned
  else
    let content := Text.strip (Content m) in
    if negb (Text.startswith "sms_unmonitor " content) then ret Returned
    else
      let sender := SenderWxid m in
      if negb (is_admin E sender)
      then (send_text_message (FromWxid m) rejection ;;; ret Returned)
      else
        let parts := Text.split content in
        if (length parts <? 2)%nat
        then (send_text_message (FromWxid m) (Plain "用法: sms_unmonitor <wxid>") ;;;
              ret Returned)
        else
          match parts !! 1%nat with
          | None => ret RaisedIndexError
          | Some wxid =>
              if negb (Dict.mem wxid (users s))
              then (send_text_message (FromWxid m)
                      (Plain ("用户 " ++ wxid ++ " 不存在于监控列表中")) ;;;
                    ret Returned)
              else
                modify_self (fun s => set_users (Dict.del wxid (users s)) s) ;;;
                modify_self (fun s =>
                  if bool_decide (wxid ∈ offline_users s)
                  then set_offline_users (offline_users s ∖ {[wxid]}) s
                  else s) ;;;
                send_text_message (FromWxid m)
                  (Plain ("已成功将用户 " ++ wxid ++ " 从监控列表中移除")) ;;;
                ret Returned
          end.

Definition handle_message_template_command (E : Env) (b : string) (m : message)
    : M outcome :=
  modify_self (set_bot (Some b)) ;;;
  s <- get_self ;;
  if negb (enable s) then ret Returned
  else
    let content := Text.strip (Content m) in
    if negb (Text.startswith "sms_template " content) then ret Returned
    else
      let sender := SenderWxid m in
      if negb (is_admin E sender)
      then (send_text_message (FromWxid m) rejection ;;; ret Returned)
      else
        let parts := Text.split_max 2 content in
        if (length parts <? 3)%nat
        then (send_text_message (FromWxid m)
                (Plain ("用法: " ++ nl ++ "sms_template title 新标题模板" ++ nl
                        ++ "sms_template content 新内容模板" ++ nl ++ nl
                        ++ "可用变量: {wxid}, {time}, {date}, {hour}, {bot_name}, {bot_wxid}")) ;;;
              ret Returned)
        else
          match parts !! 1%nat, parts !! 2%nat with
          | Some ty, Some template_content =>
              let template_type := Text.lower ty in
              (if String.eqb template_type "title"
               then modify_self (set_title_template template_content) ;;;
                    send_text_message (FromWxid m)
                      (Plain ("已更新通知标题模板为:" ++ nl ++ template_content))
               else if String.eqb template_type "content"
               then modify_self (set_content_template template_content) ;;;
                    send_text_message (FromWxid m)
                      (Plain ("已更新通知内容模板为:" ++ nl ++ template_content))
               else if String.eqb template_type "test_title"
               then modify_self (set_test_title_template template_content) ;;;
                    send_text_message (FromWxid m)
                      (Plain ("已更新测试通知标题模板为:" ++ nl ++ template_content))
               else if String.eqb template_type "test_content"
               then modify_self (set_test_content_template template_content) ;;;
                    send_text_message (FromWxid m)
                      (Plain ("已更新测试通知内容模板为:" ++ nl ++ template_content))
               else send_text_message (FromWxid m)
                      (Plain ("未知的模板类型: " ++ template_type ++ nl
                              ++ "支持的类型: title, content, test_title, test_content"))) ;;;
              send_text_message (FromWxid m)
                (Preview {| r_template := template_content;
                             r_wxid := current_wxid s |}) ;;;
              emit SaveTemplates ;;;
              ret Returned
          | _, _ => ret RaisedIndexError
          end.

(** The eight administrative commands and their handlers. *)
Inductive command :=
| AddEntity
| RemoveEntity
| Status
| Reload
| TestNotification
| ChangeChannel
| SetWxid
| SetTemplate.

Definition handler (c : command) : Env -> string -> message -> M outcome :=
  match c with
  | AddEntity => handle_monitor_command
  | RemoveEntity => handle_unmonitor_command
  | Status => handle_status_command
  | Reload => handle_reload_command
  | TestNotification => handle_test_command
  | ChangeChannel => handle_channel_command
  | SetWxid => handle_set_wxid_command
  | SetTemplate => handle_message_template_command
  end.

(** The test each handler applies to [content] before the admin check. *)
Definition invokes (c : command) (content : string) : bool :=
  match c with
  | AddEntity => Text.startswith "sms_monitor " content
  | RemoveEntity => Text.startswith "sms_unmonitor " content
  | Status => String.eqb content "sms_status"
  | Reload => String.eqb content "sms_reload"
  | TestNotification => Text.startswith "sms_test" content
  | ChangeChannel => Text.startswith "sms_channel " content
  | SetWxid => Text.startswith "sms_set_wxid " content
  | SetTemplate => Text.startswith "sms_template " content
  end.

(** ** Vocabulary of the properties *)


(** The signal sources that drive the plugin. *)
Inductive input :=
| TextMessage (b : string) (m : message)   (* an inbound text message *)
| LogLine (wxid : string)                  (* the log handler schedules the callback *)
| StatusPoll (r : poll_response).          (* one turn of the status loop *)

(** One input handled at time [now]; a text message goes through
    [capture_bot_id] and [capture_error_messages] (priority 1) and then
    the command handlers,
    as long as none of them raises. *)
Definition step (E : Env) (now : Z) (i : input) (w : World) : World :=
  match i with
  | TextMessage b m =>
      let '(_, w0) := capture_bot_id b m w in
      let '(_, w1) := capture_error_messages E b m w0 in
      snd (fold_left
             (fun acc c =>
                match acc with
                | (Returned, w') => handler c E b m w'
                | stopped => stopped
                end)
             [TestNotification; SetWxid; Reload; Status; AddEntity; ChangeChannel;
              RemoveEntity; SetTemplate]
             (Returned, w1))
  | LogLine wxid => snd (heartbeat_failure_callback E now wxid w)
  | StatusPoll r => snd (api_heartbeat_iteration E r now w)
  end.

(** The calls made while a timed sequence of inputs is handled, each with
    the time of the input that caused it. *)
Fixpoint timeline (E : Env) (inputs : list (Z * input)) (w : World)
    : list (Z * io_event) :=
  match inputs with
  | [] => []
  | (now, i) :: rest =>
      let w' := step E now i w in
      map (pair now) (List.skipn (length (trace w)) (trace w'))
      ++ timeline E rest w'
  end.

(** The times of the successful offline notices for [wxid]. *)
Definition deliveries (wxid : string) (tl : list (Z * io_event)) : list Z :=
  flat_map
    (fun te =>
       match te with
       | (t, Post OfflineNotice p r) =>
           if code_is_200 r && String.eqb (r_wxid (p_title p)) wxid then [t] else []
       | _ => []
       end)
    tl.

(** A call that is not a post answered with code 200. *)
Definition no_delivery (e : io_event) : Prop :=
  match e with
  | Post _ _ r => code_is_200 r = false
  | _ => True
  end.

(** Successive deliveries are at least [gap] apart. *)
Fixpoint spaced_by (gap : Z) (ts : list Z) : Prop :=
  match ts with
  | t1 :: ((t2 :: _) as rest) => gap <= t2 - t1 /\ spaced_by gap rest
  | _ => True
  end.



(** ** Sample worlds *)

Definition plugin_a : Plugin :=
  {| enable := true; debug := false; bot := None;
     pushplus_token := "tok"; pushplus_channel := "wechat";
     pushplus_template := "html"; pushplus_topic := "";
     check_interval := 2; retry_times := 3; retry_interval := 60;
     heartbeat_threshold := 3;
     users := [("wxid_a", "")]; current_wxid := "wxid_a";
     offline_users := ∅; notification_sent := ∅; heartbeat_failures := ∅;
     title_template := "微信离线通知 - {time}"; content_template := "{wxid}";
     test_title_template := "测试通知 - {time}"; test_content_template := "{wxid}";
     check_task := false |}.

Definition world_a : World :=
  {| self := plugin_a; failure_count := ∅; last_notification_time := ∅; trace := [] |}.

Definition push_ok : push_response := PushJson (Some 200) (MsgText "请求成功").

Definition push_bad_token : push_response :=
  PushJson (Some 903) (MsgText "无效的用户token").

Definition push_server_error : push_response :=
  PushJson (Some 500) (MsgText "服务器错误").

(** An environment in which every post gets the reply [r] and the
    administrators are [adm]. *)
Definition env_of (r : push_response) (adm : list string) : Env :=
  {| push_api := fun _ => r; admins := Some adm; config := ConfigMissing |}.

(** [str(message)] for a dict with these five keys whose values need no
    escaping. *)
Definition repr_message (msg_type from to sender content : string) : string :=
  "{'MsgType': " ++ msg_type ++ ", 'FromWxid': '" ++ from ++ "', 'ToWxid': '" ++ to
  ++ "', 'SenderWxid': '" ++ sender ++ "', 'Content': '" ++ content ++ "'}".

(** A text message typed by [sender] in a private chat with the bot. *)
Definition chat (sender content : string) : message :=
  {| MsgType := 1; FromWxid := sender; ToWxid := "wxid_a"; SenderWxid := sender;
     Content := content;
     as_str := repr_message "1" sender "wxid_a" sender content |}.

(** A chat message that merely contains the word "error". *)
Definition error_chat : message := chat "wxid_friend" "error".




(** [wxid_a] is offline, has two recorded failures and was notified at
    time 100. *)
Definition world_c : World :=
  {| self :=
       set_offline_users {["wxid_a"]}
         (Build_Plugin true false None "tok" "wechat" "html" "" 2 3 60 3
            [("wxid_a", "")] "wxid_a" ∅ {["wxid_a" := 100]} ∅
            "微信离线通知 - {time}" "{wxid}" "测试通知 - {time}" "{wxid}" false);
     failure_count := {["wxid_a" := [1; 2]]};
     last_notification_time := {["wxid_a" := 100]};
     trace := [] |}.

(** The plugin switched off. *)
Definition world_off : World :=
  with_self
    (Build_Plugin false false None "tok" "wechat" "html" "" 2 3 60 3
       [("wxid_a", "")] "wxid_a" ∅ ∅ ∅
       "微信离线通知 - {time}" "{wxid}" "测试通知 - {time}" "{wxid}" false)
    world_a.

(** * The rest of the plugin *)

From Stdlib Require Import DecimalString.

(** ** More text vocabulary *)

(** [s[-1]], when [s] is not empty. *)
Fixpoint last_char (s : string) : option ascii :=
  match s with
  | EmptyString => None
  | String c EmptyString => Some c
  | String _ r => last_char r
  end.

(** No character of [s] is blank. *)
Definition blank_free (s : string) : bool :=
  forallb (fun c => negb (Text.is_space c)) (list_ascii_of_string s).

(** ** Vocabulary for the gated signal sources *)

(** The inputs whose handling goes through the resend interval: the
    log-driven callback and the status poll. *)
Definition gated (i : input) : bool :=
  match i with
  | TextMessage _ _ => false
  | LogLine _ | StatusPoll _ => true
  end.



(** A call that, if it is a post, is an offline notice for an entity of
    the registry [u], with no receiver in the request. *)
Definition monitored_notice (u : list (string * string)) (e : io_event) : Prop :=
  match e with
  | Post k p _ =>
      k = OfflineNotice /\ Dict.mem (r_wxid (p_title p)) u = true /\ p_to p = None
  | _ => True
  end.

(** [w'] is [w] with more calls in its trace, each of them satisfying [P]. *)
Definition extends_with (P : io_event -> Prop) (w w' : World) : Prop :=
  exists evs, w' = with_trace (trace w ++ evs) w /\ Forall P evs.

(** The attributes that record offline entities and sent notifications
    are the same in [s'] as in [s], but for entities leaving the offline
    set. *)
Definition quiet_fields (s s' : Plugin) : Prop :=
  notification_sent s' = notification_sent s
  /\ heartbeat_failures s' = heartbeat_failures s
  /\ offline_users s' ⊆ offline_users s.

(** An enabled plugin has a token. *)
Definition armed (s : Plugin) : Prop :=
  enable s = true -> pushplus_token s <> "".

(** The world after a timed sequence of inputs. *)
Fixpoint run (E : Env) (inputs : list (Z * input)) (w : World) : World :=
  match inputs with
  | [] => w
  | (now, i) :: rest => run E rest (step E now i w)
  end.

(** ** Rendering a template: [_format_message_template] *)

(** [s.replace(old, new)] for a non-empty [old]: the occurrences of [old]
    are found from the left and do not overlap; [skip] characters of an
    occurrence just replaced are still to be passed over. *)
Fixpoint replace_from (old new : string) (skip : nat) (s : string) : string :=
  match s with
  | EmptyString => EmptyString
  | String c r =>
      match skip with
      | S k => replace_from old new k r
      | O =>
          if String.prefix old s
          then new ++ replace_from old new (String.length old - 1) r
          else String c (replace_from old new 0 r)
      end
  end.

Definition replace (old new s : string) : string := replace_from old new 0 s.

(** The strings that [datetime.now()] and [getattr(self, "bot_name",
    "微信机器人")] give at the time of the call. *)
Record render_env := {
  now_time : string;      (* [now.strftime("%Y-%m-%d %H:%M:%S")] *)
  now_date : string;      (* [now.strftime("%Y-%m-%d")] *)
  now_hour : string;      (* [now.strftime("%H:%M")] *)
  bot_name : string
}.

(** The [replacements] dict, in its order. *)
Definition replacements (R : render_env) (s : Plugin) (wxid : string)
    : list (string * string) :=
  [("{wxid}", wxid); ("{time}", now_time R); ("{date}", now_date R);
   ("{hour}", now_hour R); ("{bot_name}", bot_name R);
   ("{bot_wxid}", current_wxid s)].

(** [for key, value in replacements.items(): result = result.replace(key,
    value)] *)
Definition format_message_template (R : render_env) (s : Plugin)
    (template wxid : string) : string :=
  fold_left (fun result kv => replace (fst kv) (snd kv) result)
    (replacements R s wxid) template.

(** No character of [s] is an opening brace. *)
Definition brace_free (s : string) : bool :=
  forallb (fun c => negb (Ascii.eqb c "{"%char)) (list_ascii_of_string s).

(** ** The filter on the standard error stream: stderr_monitor.py *)

Inductive monitor_event :=
| ToErrorFile (line : string)   (* the line appended to heartbeat_errors.txt *)
| ToStderr (line : string)      (* [sys.stderr.write(line)] with its flush *)
| Nap.                          (* [time.sleep(0.1)] *)

(** ["Heartbeat failed" in line or "用户可能退出" in line] *)
Definition stderr_marker (line : string) : bool :=
  Text.contains "Heartbeat failed" line || Text.contains "用户可能退出" line.

(** The [while True] loop.  [reads] are the results of the successive
    [sys.stdin.readline()] calls, an empty one being the end of the
    input; [file_ok i] tells whether the error file can be written when
    the [i]-th line is handled (the bare [except] swallows a failure). *)
Fixpoint stderr_monitor_from (file_ok : nat -> bool) (i : nat) (reads : list string)
    : list monitor_event :=
  match reads with
  | [] => []
  | line :: rest =>
      if Text.is_empty line then []
      else
        (if stderr_marker line && file_ok i then [ToErrorFile line] else [])
        ++ ToStderr line :: Nap :: stderr_monitor_from file_ok (S i) rest
  end.

Definition stderr_monitor (file_ok : nat -> bool) (reads : list string)
    : list monitor_event :=
  stderr_monitor_from file_ok 0 reads.

Definition forwarded (evs : list monitor_event) : list string :=
  flat_map (fun e => match e with ToStderr l => [l] | _ => [] end) evs.

Definition filed (evs : list monitor_event) : list string :=
  flat_map (fun e => match e with ToErrorFile l => [l] | _ => [] end) evs.

(** The reads before the first empty one. *)
Fixpoint until_eof (reads : list string) : list string :=
  match reads with
  | [] => []
  | line :: rest => if Text.is_empty line then [] else line :: until_eof rest
  end.

(** ** The heartbeat test command: [handle_test_heartbeat_command] *)









(** ** A sample configuration file *)

Definition config_a : config_toml :=
  {| c_enable := true; c_debug := false; c_current_wxid := "wxid_a";
     c_token := "tok"; c_channel := "wechat"; c_template := "html"; c_topic := "";
     c_check_interval := 2; c_retry_times := 3; c_retry_interval := 60;
     c_heartbeat_threshold := 3;
     c_title_template := None; c_test_title_template := None;
     c_content_template := "{wxid}"; c_test_content_template := "{wxid}" |}.

(** An environment whose config.toml is [config_a]. *)
Definition env_loaded (r : push_response) (adm : list string) : Env :=
  {| push_api := fun _ => r; admins := Some adm; config := ConfigParsed config_a |}.

(** * Properties *)

Open Scope list_scope.

(** Opens a handler: the monad is unfolded and the stored bot handle is
    pushed through the first reads of the plugin. *)
Ltac enter_handler :=
  unfold bind, modify_self, get_self, send_text_message, emit, ret;
  cbn [self with_self set_bot enable].

(** ** Text primitives on sample lines *)

Example strip_padded_ok : Text.lower (Text.strip (" OK" ++ nl)%string) = "ok".
Proof. reflexivity. Qed.

Example split_monitor_line :
  Text.split "sms_monitor  wxid_abc" = ["sms_monitor"; "wxid_abc"].
Proof. reflexivity. Qed.

Example split_max_template :
  Text.split_max 2 "sms_template title  a b  c" = ["sms_template"; "title"; "a b  c"].
Proof. reflexivity. Qed.

Example search_wxid_in_line :
  Text.re_search_wxid "Heartbeat failed for wxid wxid_ab12, retry" = Some "wxid_ab12".
Proof. reflexivity. Qed.

Example search_wxid_absent : Text.re_search_wxid "wxid_ error" = None.
Proof. reflexivity. Qed.

Example bad_token_is_terminal : classify push_bad_token = TokenRejected.
Proof. reflexivity. Qed.

Example server_error_is_transient : classify push_server_error = Retry.
Proof. reflexivity. Qed.

(** ** The delivery client *)

Lemma classify_code_is_200 (r : push_response) :
  code_is_200 r = true <-> classify r = Delivered.
Proof.
  destruct r as [|code msg]; cbn [classify]; [split; discriminate|].
  destruct (code_is_200 (PushJson code msg)); [tauto|].
  split; [discriminate|].
  destruct msg; try destruct (is_token_error _); discriminate.
Qed.



Section Attempts.

Variables (resp : nat -> push_response) (p : payload) (times interval : Z).






End Attempts.

Lemma token_present (s : string) : s <> "" -> Text.is_empty s = false.
Proof. destruct s; [congruence|reflexivity]. Qed.




Example bad_token_one_post :
  trace (snd (send_pushplus_notification (env_of push_bad_token []) "wxid_a" "" world_a))
  = [Post OfflineNotice (notification_payload plugin_a "wxid_a") push_bad_token].
Proof. reflexivity. Qed.

Example server_error_three_posts :
  trace (snd (send_pushplus_notification (env_of push_server_error []) "wxid_a" "" world_a))
  = [Post OfflineNotice (notification_payload plugin_a "wxid_a") push_server_error;
     Sleep 60;
     Post OfflineNotice (notification_payload plugin_a "wxid_a") push_server_error;
     Sleep 60;
     Post OfflineNotice (notification_payload plugin_a "wxid_a") push_server_error].
Proof. reflexivity. Qed.

(** ** What a delivery call leaves alone *)

Lemma attempts_result (resp : nat -> push_response) (p : payload)
    (times interval : Z) : forall retries,
  let r := push_attempts resp p times interval retries in
  if fst r
  then exists pre x, snd r = (pre ++ [Post OfflineNotice p (resp x)])%list
                     /\ code_is_200 (resp x) = true
  else Forall no_delivery (snd r).
Proof.
  induction retries as [|retry rest IH]; cbn [push_attempts]; [constructor|].
  destruct (classify (resp retry)) eqn:Hc; cbn [fst snd].
  - exists [], retry. split; [reflexivity|]. apply classify_code_is_200, Hc.
  - repeat constructor. cbn.
    destruct (code_is_200 (resp retry)) eqn:H2; [|reflexivity].
    apply classify_code_is_200 in H2. congruence.
  - cbv zeta in IH. destruct (push_attempts resp p times interval rest) as [ok evs].
    cbn [fst snd] in *.
    assert (Hno : no_delivery (Post OfflineNotice p (resp retry))).
    { cbn. destruct (code_is_200 (resp retry)) eqn:H2; [|reflexivity].
      apply classify_code_is_200 in H2. congruence. }
    destruct ok.
    + destruct IH as (pre & x & -> & Hx).
      exists (Post OfflineNotice p (resp retry)
              :: (if Z.of_nat retry <? times - 1 then [Sleep interval] else []) ++ pre)%list, x.
      split; [|assumption]. cbn. rewrite <- app_assoc. reflexivity.
    + constructor; [assumption|]. apply Forall_app. split; [|assumption].
      destruct (Z.of_nat retry <? times - 1); repeat constructor.
Qed.

(** A delivery call only extends the trace; when it returns true the last
    call it made is a post answered with code 200, and when it returns
    false none of its posts was. *)
Lemma send_frame (E : Env) (wxid to : string) (w : World) :
  exists evs,
    snd (send_pushplus_notification E wxid to w) = with_trace (trace w ++ evs) w
    /\ if fst (send_pushplus_notification E wxid to w)
       then exists pre r,
              evs = (pre ++ [Post OfflineNotice (notification_payload (self w) wxid) r])%list
              /\ code_is_200 r = true
       else Forall no_delivery evs.
Proof.
  unfold send_pushplus_notification.
  destruct (Text.is_empty (pushplus_token (self w))).
  - exists []. cbn. split; [|constructor].
    destruct w; unfold with_trace; cbn. rewrite app_nil_r. reflexivity.
  - cbv zeta.
    pose proof (attempts_result
                  (fun i => push_api E (count_posts (trace w) + i)%nat)
                  (notification_payload (self w) wxid)
                  (retry_times (self w)) (retry_interval (self w))
                  (range (retry_times (self w)))) as H.
    cbv zeta in H.
    destruct (push_attempts _ _ _ _ _) as [ok evs]. cbn [fst snd] in *.
    exists evs. split; [reflexivity|].
    destruct ok; [|assumption].
    destruct H as (pre & x & -> & Hx). eauto.
Qed.

Lemma process_frame (E : Env) (wxid : string) (w : World) :
  exists evs,
    process_heartbeat_failure E wxid w = (tt, with_trace (trace w ++ evs) w).
Proof.
  unfold process_heartbeat_failure, bind, get_self, ret.
  destruct (Dict.mem wxid (users (self w))).
  - destruct (send_frame E wxid "" w) as (evs & Hsnd & _).
    destruct (send_pushplus_notification E wxid "" w) as [ok w2]. cbn in Hsnd.
    exists evs. rewrite Hsnd. reflexivity.
  - exists []. destruct w; unfold with_trace; cbn. rewrite app_nil_r. reflexivity.
Qed.

(** ** The failure aggregator *)

Lemma record_failure_app (now : Z) (old : list Z) :
  record_failure now old = List.filter (fun t => now - t <=? 300) old ++ [now].
Proof.
  unfold record_failure. rewrite List.filter_app. cbn.
  replace (now - now <=? 300) with true by (symmetry; apply Z.leb_le; lia).
  reflexivity.
Qed.

Lemma record_failure_In (now : Z) (old : list Z) (t : Z) :
  In t (record_failure now old) <-> (In t old \/ t = now) /\ now - t <= 300.
Proof.
  unfold record_failure. rewrite List.filter_In, in_app_iff, Z.leb_le. cbn.
  intuition congruence.
Qed.

Lemma callback_ignores_unmonitored (E : Env) (now : Z) (wxid : string) (w : World) :
  Dict.mem wxid (users (self w)) = false ->
  heartbeat_failure_callback E now wxid w = (tt, w).
Proof. intros H. unfold heartbeat_failure_callback. rewrite H. reflexivity. Qed.

Lemma process_ignores_unmonitored (E : Env) (wxid : string) (w : World) :
  Dict.mem wxid (users (self w)) = false ->
  process_heartbeat_failure E wxid w = (tt, w).
Proof.
  intros H. unfold process_heartbeat_failure, bind, get_self, ret.
  rewrite H. reflexivity.
Qed.

(** The callback, step by step. *)
Lemma callback_unfold (E : Env) (now : Z) (wxid : string) (w : World) :
  Dict.mem wxid (users (self w)) = true ->
  let rec := record_failure now (default [] (failure_count w !! wxid)) in
  let w1 := with_failure_count (<[wxid := rec]> (failure_count w)) w in
  let sent := send_pushplus_notification E wxid "" w1 in
  snd (heartbeat_failure_callback E now wxid w)
  = if over_threshold (heartbeat_threshold (self w)) rec
       && resend_allowed now (last_notification_time w !! wxid)
    then if fst sent
         then with_failure_count (<[wxid := []]> (failure_count (snd sent)))
                (with_last_notification_time
                   (<[wxid := now]> (last_notification_time (snd sent))) (snd sent))
         else snd sent
    else w1.
Proof.
  intros Hmon rec w1 sent. unfold heartbeat_failure_callback. rewrite Hmon.
  cbn [negb]. fold rec. fold w1.
  change (heartbeat_threshold (self w1)) with (heartbeat_threshold (self w)).
  change (last_notification_time w1) with (last_notification_time w).
  destruct (over_threshold _ rec); cbn [andb]; [|reflexivity].
  destruct (resend_allowed _ _); [|reflexivity].
  fold sent. destruct sent as [ok w2]. destruct ok; reflexivity.
Qed.

(** C2.  For a monitored entity, the callback appends the new timestamp
    to the entity's record and keeps exactly the entries that are at most
    300 seconds old; the threshold test is true if and only if the pruned
    record has at least [heartbeat_threshold] entries.  The pruned record
    is what the callback stores (a successful delivery apart, which
    empties it), and once fewer than threshold - 1 of the old entries are
    still inside the window the test is false again. *)
Theorem failure_window_threshold (E : Env) (now : Z) (wxid : string) (w : World) :
  Dict.mem wxid (users (self w)) = true ->
  let old := default [] (failure_count w !! wxid) in
  let threshold := heartbeat_threshold (self w) in
  let kept := List.filter (fun t => now - t <=? 300) old in
  let rec := record_failure now old in
  let w' := snd (heartbeat_failure_callback E now wxid w) in
  rec = kept ++ [now]
  /\ (forall t, In t rec <-> (In t old \/ t = now) /\ now - t <= 300)
  /\ (over_threshold threshold rec = true <-> threshold <= Z.of_nat (length rec))
  /\ (over_threshold threshold rec = false ->
        w' = with_failure_count (<[wxid := rec]> (failure_count w)) w)
  /\ (failure_count w' !! wxid = Some rec
      \/ (over_threshold threshold rec = true /\ failure_count w' !! wxid = Some []))
  /\ (Z.of_nat (length kept) + 1 < threshold -> over_threshold threshold rec = false).
Proof.
  intros Hmon old threshold kept rec w'.
  assert (Hrec : rec = kept ++ [now]) by apply record_failure_app.
  split; [exact Hrec|].
  split; [intros t; apply record_failure_In|].
  split; [unfold over_threshold; apply Z.leb_le|].
  subst w'. rewrite (callback_unfold E now wxid w Hmon). cbv zeta.
  fold old. fold rec. fold threshold.
  split; [intros ->; reflexivity|]. split.
  - destruct (over_threshold threshold rec) eqn:Hover; cbn [andb].
    + destruct (resend_allowed now (last_notification_time w !! wxid)).
      * destruct (send_frame E wxid ""
                    (with_failure_count (<[wxid := rec]> (failure_count w)) w))
          as (evs & Hsnd & _).
        destruct (fst (send_pushplus_notification E wxid "" _)).
        -- right. split; [reflexivity|]. cbn. apply lookup_insert_eq.
        -- left. rewrite Hsnd. cbn. apply lookup_insert_eq.
      * left. cbn. apply lookup_insert_eq.
    + left. cbn. apply lookup_insert_eq.
  - intros Hfew. unfold over_threshold. apply Z.leb_gt.
    rewrite Hrec, length_app. cbn [length]. lia.
Qed.

Lemma failure_window_threshold_witness :
  Dict.mem "wxid_a"
    (users (self (with_failure_count {["wxid_a" := [0; 200; 390]]} world_a))) = true
  /\ record_failure 400 [0; 200; 390] = [200; 390; 400]
  /\ over_threshold 3 (record_failure 400 [0; 200; 390]) = true
  /\ over_threshold 3 (record_failure 700 [0; 200; 390]) = false.
Proof.
  split; [reflexivity|].
  pose proof (failure_window_threshold (env_of push_ok []) 400 "wxid_a"
                (with_failure_count {["wxid_a" := [0; 200; 390]]} world_a)
                eq_refl) as H.
  cbv zeta in H. destruct H as (H1 & _).
  split; [exact H1|]. split; reflexivity.
Defined.

Example threshold_reached_at_third_failure :
  let w1 := step (env_of push_server_error []) 0 (LogLine "wxid_a") world_a in
  let w2 := step (env_of push_server_error []) 10 (LogLine "wxid_a") w1 in
  let w3 := step (env_of push_server_error []) 20 (LogLine "wxid_a") w2 in
  (trace w2 = [] /\ failure_count w2 !! "wxid_a" = Some [0; 10])
  /\ failure_count w3 !! "wxid_a" = Some [0; 10; 20]
  /\ count_posts (trace w3) = 3%nat.
Proof. vm_compute. repeat split. Qed.

(** ** The notification gate *)

Lemma notify_users_frame (E : Env) (now : Z) : forall wxids w,
  self (snd (notify_users E now wxids w)) = self w
  /\ failure_count (snd (notify_users E now wxids w)) = failure_count w.
Proof.
  induction wxids as [|wxid rest IH]; intros w; [split; reflexivity|].
  cbn [notify_users].
  destruct (resend_allowed now (last_notification_time w !! wxid)); [|apply IH].
  destruct (process_frame E wxid w) as (evs & ->).
  destruct (IH (with_last_notification_time
                  (<[wxid := now]> (last_notification_time (with_trace (trace w ++ evs) w)))
                  (with_trace (trace w ++ evs) w))) as [H1 H2].
  rewrite H1, H2. split; reflexivity.
Qed.






(** The scenario of spec section 8: three failures, a delivery, a reset;
    three fresh failures reach the threshold again, and the resend
    interval keeps the gate shut. *)
Example reset_then_fresh_failures :
  let E := env_of push_ok [] in
  let w3 := fold_left (fun w t => step E t (LogLine "wxid_a") w) [0; 10; 20] world_a in
  let w5 := fold_left (fun w t => step E t (LogLine "wxid_a") w) [21; 22] w3 in
  let w6 := step E 23 (LogLine "wxid_a") w5 in
  (failure_count w3 !! "wxid_a" = Some [] /\ last_notification_time w3 !! "wxid_a" = Some 20
   /\ count_posts (trace w3) = 1%nat)
  /\ failure_count w5 !! "wxid_a" = Some [21; 22]
  /\ (failure_count w6 !! "wxid_a" = Some [21; 22; 23] /\ count_posts (trace w6) = 1%nat).
Proof. vm_compute. repeat split. Qed.

(** ** At most one notification per resend interval *)

(** C1 fails on the passive path: [_process_heartbeat_failure] posts the
    offline notice for every signal it is given and consults no
    notification time.  Two ordinary chat messages that contain the word
    "error", one second apart, give two successful deliveries for the
    monitored entity one second apart. *)
Theorem passive_path_resends_within_interval :
  let E := env_of push_ok [] in
  let tl := timeline E [(0, TextMessage "bot" error_chat);
                        (1, TextMessage "bot" error_chat)] world_a in
  deliveries "wxid_a" tl = [0; 1]
  /\ ~ spaced_by 3600 (deliveries "wxid_a" tl).
Proof.
  assert (H : deliveries "wxid_a"
                (timeline (env_of push_ok [])
                   [(0, TextMessage "bot" error_chat);
                    (1, TextMessage "bot" error_chat)] world_a) = [0; 1])
    by (vm_compute; reflexivity).
  cbv zeta. rewrite H. split; [reflexivity|]. cbn. lia.
Qed.

(** The same two signals through the log-driven callback, once the
    threshold is reached, give one delivery. *)
Example gated_path_sends_once :
  let E := env_of push_ok [] in
  deliveries "wxid_a"
    (timeline E [(0, LogLine "wxid_a"); (1, LogLine "wxid_a"); (2, LogLine "wxid_a");
                 (3, LogLine "wxid_a"); (4, LogLine "wxid_a"); (5, LogLine "wxid_a");
                 (6, StatusPoll (PollHttp 500 ""))] world_a) = [2].
Proof. vm_compute. reflexivity. Qed.

(** ** Attribution of passive events *)




(** ** Removing an entity *)

Lemma get_del_eq {V} (k : string) (d : list (string * V)) :
  Dict.get k (Dict.del k d) = None.
Proof.
  induction d as [|[k' v] r IH]; [reflexivity|]. cbn.
  destruct (String.eqb_spec k k') as [->|Hne]; [assumption|].
  cbn. destruct (String.eqb_spec k k'); [contradiction|assumption].
Qed.

Lemma get_del_ne {V} (x k : string) (d : list (string * V)) :
  x <> k -> Dict.get x (Dict.del k d) = Dict.get x d.
Proof.
  intros Hne. induction d as [|[k' v] r IH]; [reflexivity|]. cbn.
  destruct (String.eqb_spec k k') as [->|Hk].
  - destruct (String.eqb_spec x k'); [contradiction|assumption].
  - cbn. destruct (String.eqb_spec x k'); [reflexivity|assumption].
Qed.

Lemma split_has_two (parts : list string) (x : string) :
  parts !! 1%nat = Some x -> (length parts <? 2)%nat = false.
Proof.
  intros H. apply lookup_lt_Some in H. apply Nat.ltb_ge. lia.
Qed.

(** C6 as stated fails: removing an entity leaves its failure record and
    its notification times where they were. *)
Lemma unmonitor_keeps_failures_and_times :
  let E := env_of push_ok ["wxid_admin"] in
  let m := chat "wxid_admin" "sms_unmonitor wxid_a" in
  let w' := snd (handle_unmonitor_command E "bot" m world_c) in
  Dict.mem "wxid_a" (users (self world_c)) = true
  /\ Dict.mem "wxid_a" (users (self w')) = false
  /\ bool_decide ("wxid_a" ∈ offline_users (self w')) = false
  /\ failure_count w' !! "wxid_a" = Some [1; 2]
  /\ last_notification_time w' !! "wxid_a" = Some 100
  /\ notification_sent (self w') !! "wxid_a" = Some 100.
Proof. vm_compute. repeat split. Qed.

(** C6, as the code has it.  After [sms_unmonitor wxid] by an
    administrator, for a monitored [wxid]: the entity is out of the
    registry and out of the offline set, the other entities stay, and
    the failure records and notification times of every entity, the
    removed one included, are what they were.  Monitoring is membership
    in the registry: later signals for the removed entity are ignored. *)
Theorem unmonitor_clears_registry_and_offline
    (E : Env) (b : string) (m : message) (w : World) (wxid : string) :
  enable (self w) = true ->
  is_admin E (SenderWxid m) = true ->
  Text.startswith "sms_unmonitor " (Text.strip (Content m)) = true ->
  Text.split (Text.strip (Content m)) !! 1%nat = Some wxid ->
  Dict.mem wxid (users (self w)) = true ->
  let w' := snd (handle_unmonitor_command E b m w) in
  Dict.mem wxid (users (self w')) = false
  /\ (wxid ∉ offline_users (self w'))
  /\ (forall x, x <> wxid ->
        Dict.mem x (users (self w')) = Dict.mem x (users (self w))
        /\ (x ∈ offline_users (self w') <-> x ∈ offline_users (self w)))
  /\ failure_count w' = failure_count w
  /\ last_notification_time w' = last_notification_time w
  /\ notification_sent (self w') = notification_sent (self w)
  /\ heartbeat_failures (self w') = heartbeat_failures (self w)
  /\ (forall now, heartbeat_failure_callback E now wxid w' = (tt, w'))
  /\ process_heartbeat_failure E wxid w' = (tt, w').
Proof.
  intros Hen Hadm Hcmd Hparts Hmon w'.
  assert (Hw' : w' = with_trace
                       (trace w ++ [SendText (FromWxid m)
                                      (Plain ("已成功将用户 " ++ wxid ++ " 从监控列表中移除")%string)])
                       (with_self
                          (let s1 := set_users (Dict.del wxid (users (self w)))
                                       (set_bot (Some b) (self w)) in
                           if bool_decide (wxid ∈ offline_users s1)
                           then set_offline_users (offline_users s1 ∖ {[wxid]}) s1
                           else s1) w)).
  { subst w'. unfold handle_unmonitor_command. enter_handler.
    rewrite Hen. cbn [negb].
    rewrite Hcmd, Hadm. cbn [negb]. rewrite (split_has_two _ _ Hparts), Hparts.
    cbn [users set_bot]. rewrite Hmon. cbn [negb]. reflexivity. }
  assert (Hmem : Dict.mem wxid (users (self w')) = false).
  { rewrite Hw'. cbn. destruct (bool_decide _); cbn; unfold Dict.mem;
      rewrite get_del_eq; reflexivity. }
  split; [exact Hmem|].
  split.
  { rewrite Hw'. cbn. destruct (bool_decide _) eqn:Hd; cbn.
    - intros Hin. apply elem_of_difference in Hin as [_ Hn].
      apply Hn, elem_of_singleton. reflexivity.
    - apply bool_decide_eq_false in Hd. exact Hd. }
  split.
  { intros x Hx. rewrite Hw'. cbn. split.
    - destruct (bool_decide _); cbn; unfold Dict.mem; rewrite get_del_ne by assumption;
        reflexivity.
    - destruct (bool_decide _) eqn:Hd; cbn; [|reflexivity].
      rewrite elem_of_difference, elem_of_singleton. tauto. }
  split; [rewrite Hw'; reflexivity|].
  split; [rewrite Hw'; reflexivity|].
  split; [rewrite Hw'; cbn; destruct (bool_decide _); reflexivity|].
  split; [rewrite Hw'; cbn; destruct (bool_decide _); reflexivity|].
  split; [intros now; apply callback_ignores_unmonitored, Hmem|].
  apply process_ignores_unmonitored, Hmem.
Qed.

Lemma unmonitor_clears_registry_and_offline_witness :
  Dict.mem "wxid_a" (users (self world_c)) = true
  /\ Dict.mem "wxid_a"
       (users (self (snd (handle_unmonitor_command (env_of push_ok ["wxid_admin"]) "bot"
                            (chat "wxid_admin" "sms_unmonitor wxid_a")
                            world_c)))) = false.
Proof.
  split; [reflexivity|].
  pose proof (unmonitor_clears_registry_and_offline (env_of push_ok ["wxid_admin"]) "bot"
                (chat "wxid_admin" "sms_unmonitor wxid_a") world_c "wxid_a"
                eq_refl eq_refl eq_refl eq_refl eq_refl) as H.
  cbv zeta in H. exact (proj1 H).
Defined.

(** ** The status poll *)




Example transport_error_is_no_signal :
  api_heartbeat_iteration (env_of push_ok []) PollRaises 0 world_a = (tt, world_a).
Proof. reflexivity. Qed.

(** ** Administrative commands *)

(** C8 as stated fails: every handler stores the bot handle before any
    check, and a switched-off plugin returns before the authorization
    check, without a reply. *)
Lemma switched_off_plugin_stays_silent :
  let E := env_of push_ok ["wxid_admin"] in
  let m := chat "wxid_stranger" "sms_status" in
  let r := handle_status_command E "bot" m world_off in
  invokes Status (Text.strip (Content m)) = true
  /\ is_admin E (SenderWxid m) = false
  /\ trace (snd r) = []
  /\ bot (self world_off) = None
  /\ bot (self (snd r)) = Some "bot".
Proof. repeat split. Qed.

(** C8, as the code has it.  When a sender who is not an administrator
    invokes one of the eight commands, the handler returns, the only
    change to the plugin is the stored bot handle, the closure state of
    the status task is untouched, and the only call made is the rejection
    reply to the chat the message came from; when the plugin is switched
    off there is no reply at all. *)
Theorem unauthorized_command_rejected
    (c : command) (E : Env) (b : string) (m : message) (w : World) :
  invokes c (Text.strip (Content m)) = true ->
  is_admin E (SenderWxid m) = false ->
  let r := handler c E b m w in
  fst r = Returned
  /\ self (snd r) = set_bot (Some b) (self w)
  /\ failure_count (snd r) = failure_count w
  /\ last_notification_time (snd r) = last_notification_time w
  /\ trace (snd r)
     = trace w ++ (if enable (self w) then [SendText (FromWxid m) rejection] else []).
Proof.
  intros Hinv Hadm r. subst r.
  destruct c; cbn [handler invokes] in *;
    unfold handle_monitor_command, handle_unmonitor_command, handle_status_command,
      handle_reload_command, handle_test_command, handle_channel_command,
      handle_set_wxid_command, handle_message_template_command;
    enter_handler;
    (destruct (enable (self w)); cbn [negb];
     [rewrite Hinv, Hadm; cbn; repeat split
     |cbn; rewrite app_nil_r; repeat split]).
Qed.

Lemma unauthorized_command_rejected_witness :
  invokes RemoveEntity (Text.strip "sms_unmonitor wxid_a") = true
  /\ is_admin (env_of push_ok ["wxid_admin"]) "wxid_stranger" = false
  /\ trace (snd (handle_unmonitor_command (env_of push_ok ["wxid_admin"]) "bot"
                   (chat "wxid_stranger" "sms_unmonitor wxid_a") world_c))
     = [SendText "wxid_stranger" rejection].
Proof.
  split; [reflexivity|]. split; [reflexivity|].
  pose proof (unauthorized_command_rejected RemoveEntity (env_of push_ok ["wxid_admin"])
                "bot" (chat "wxid_stranger" "sms_unmonitor wxid_a") world_c
                eq_refl eq_refl) as H.
  cbv zeta in H. destruct H as (_ & _ & _ & _ & H). exact H.
Defined.


Lemma test_command_run (E : Env) (b : string) (m : message) (w : World) :
  enable (self w) = true ->
  Text.startswith "sms_test" (Text.strip (Content m)) = true ->
  is_admin E (SenderWxid m) = true ->
  let s1 := set_bot (Some b) (self w) in
  let s2 := if Text.is_empty (current_wxid (self w))
            then set_users (Dict.set (SenderWxid m) "" (users s1))
                   (set_current_wxid (SenderWxid m) s1)
            else s1 in
  current_wxid s2 <> "" ->
  let r := push_api E (count_posts (trace w)) in
  handle_test_command E b m w
  = (Returned,
     with_trace
       (trace w ++ [Post TestNotice (test_payload s2 (current_wxid s2)) r;
                    SendText (FromWxid m)
                      (Plain (if code_is_200 r
                              then ("测试通知已成功发送，wxid=" ++ current_wxid s2
                                    ++ "，渠道: " ++ pushplus_channel s2)%string
                              else ("发送测试通知失败，wxid=" ++ current_wxid s2)%string))])
       (with_self s2 w)).
Proof.
  intros Hen Hcmd Hadm s1 s2 Hwxid r.
  unfold handle_test_command, bind, modify_self, get_self.
  cbn [self with_self set_bot enable current_wxid].
  rewrite Hen. cbn [negb]. rewrite Hcmd, Hadm. cbn [negb].
  subst s2 s1.
  destruct (Text.is_empty (current_wxid (self w))) eqn:Hcur;
    cbn [ret self with_self set_users set_current_wxid current_wxid set_bot] in *;
    rewrite ?Hcur; rewrite ?(token_present _ Hwxid);
    unfold send_test_message, send_text_message, emit, ret;
    cbn [self with_self trace with_trace fst snd]; fold r;
    destruct (code_is_200 r);
    cbn [self with_self trace with_trace pushplus_channel set_users set_current_wxid
           set_bot];
    unfold with_trace, with_self; cbn [self failure_count last_notification_time trace];
    rewrite <- app_assoc; reflexivity.
Qed.

(** C9.  An administrator's [sms_test] on the enabled plugin, with an
    entity to test (the primary one, or else the sender): exactly one
    test notice is posted and answered in the chat, whatever the failure
    records and notification times are, and the failure records, the
    notification times of the gate and of the plugin, and the threshold
    are afterwards what they were.  [_send_test_message] itself makes its
    one post in every world and changes nothing but the trace. *)
Theorem manual_test_bypasses_gate (E : Env) (b : string) (m : message) (w : World) :
  enable (self w) = true ->
  Text.startswith "sms_test" (Text.strip (Content m)) = true ->
  is_admin E (SenderWxid m) = true ->
  let wxid := if Text.is_empty (current_wxid (self w))
              then SenderWxid m else current_wxid (self w) in
  wxid <> "" ->
  let w' := snd (handle_test_command E b m w) in
  let r := push_api E (count_posts (trace w)) in
  (exists p reply,
     r_wxid (p_title p) = wxid
     /\ trace w' = trace w ++ [Post TestNotice p r; SendText (FromWxid m) reply])
  /\ (forall fc lt,
        trace (snd (handle_test_command E b m
                      (with_failure_count fc (with_last_notification_time lt w))))
        = trace w')
  /\ failure_count w' = failure_count w
  /\ last_notification_time w' = last_notification_time w
  /\ notification_sent (self w') = notification_sent (self w)
  /\ heartbeat_failures (self w') = heartbeat_failures (self w)
  /\ heartbeat_threshold (self w') = heartbeat_threshold (self w)
  /\ (forall x v,
        send_test_message E x v
        = (code_is_200 (push_api E (count_posts (trace v))),
           with_trace (trace v ++ [Post TestNotice (test_payload (self v) x)
                                     (push_api E (count_posts (trace v)))]) v)).
Proof.
  intros Hen Hcmd Hadm wxid Hwxid w' r.
  assert (Hcur : current_wxid
                   (if Text.is_empty (current_wxid (self w))
                    then set_users (Dict.set (SenderWxid m) ""
                                      (users (set_bot (Some b) (self w))))
                           (set_current_wxid (SenderWxid m) (set_bot (Some b) (self w)))
                    else set_bot (Some b) (self w)) = wxid).
  { subst wxid. destruct (Text.is_empty (current_wxid (self w))); reflexivity. }
  assert (Hne : current_wxid
                  (if Text.is_empty (current_wxid (self w))
                   then set_users (Dict.set (SenderWxid m) ""
                                     (users (set_bot (Some b) (self w))))
                          (set_current_wxid (SenderWxid m) (set_bot (Some b) (self w)))
                   else set_bot (Some b) (self w)) <> "")
    by (rewrite Hcur; exact Hwxid).
  pose proof (test_command_run E b m w Hen Hcmd Hadm Hne) as Hrun.
  pose proof (fun fc lt =>
                test_command_run E b m
                  (with_failure_count fc (with_last_notification_time lt w))
                  Hen Hcmd Hadm Hne) as Hrun2.
  cbv zeta in Hrun, Hrun2.
  split.
  { unfold w'. rewrite Hrun. cbn [snd trace with_trace].
    eexists. eexists. split; [|reflexivity]. cbn [test_payload p_title r_wxid].
    exact Hcur. }
  split.
  { intros fc lt. unfold w'. rewrite Hrun, Hrun2. reflexivity. }
  unfold w'. rewrite Hrun. cbn [snd].
  repeat split;
    cbn [with_trace with_self failure_count last_notification_time self];
    destruct (Text.is_empty (current_wxid (self w))); reflexivity.
Qed.

Lemma manual_test_bypasses_gate_witness :
  enable (self world_c) = true
  /\ last_notification_time world_c !! "wxid_a" = Some 100
  /\ failure_count
       (snd (handle_test_command (env_of push_ok ["wxid_admin"]) "bot"
               (chat "wxid_admin" "sms_test") world_c))
     = failure_count world_c
  /\ last_notification_time
       (snd (handle_test_command (env_of push_ok ["wxid_admin"]) "bot"
               (chat "wxid_admin" "sms_test") world_c))
     = last_notification_time world_c.
Proof.
  split; [reflexivity|]. split; [reflexivity|].
  pose proof (manual_test_bypasses_gate (env_of push_ok ["wxid_admin"]) "bot"
                (chat "wxid_admin" "sms_test") world_c
                eq_refl eq_refl eq_refl ltac:(discriminate)) as H.
  cbv zeta in H. destruct H as (_ & _ & Hfc & Hlt & _).
  split; [exact Hfc|exact Hlt].
Defined.

Example manual_test_inside_resend_interval :
  trace (snd (handle_test_command (env_of push_ok ["wxid_admin"]) "bot"
                (chat "wxid_admin" "sms_test") world_c))
  = [Post TestNotice (test_payload (self world_c) "wxid_a") push_ok;
     SendText "wxid_admin" (Plain "测试通知已成功发送，wxid=wxid_a，渠道: wechat")].
Proof. reflexivity. Qed.

(** ** The arity of [sms_monitor] *)

(** A line [sms_monitor <wxid>] with a blank-free, non-empty [wxid] is
    its own stripped form and splits into exactly two parts. *)
Lemma append_empty_r (s : string) : (s ++ "")%string = s.
Proof.
  induction s as [|c r IH]; [reflexivity|].
  change (String c (r ++ "") = String c r). rewrite IH. reflexivity.
Qed.

Lemma append_snoc (s r : string) (c : ascii) :
  ((s ++ String c "") ++ r)%string = (s ++ String c r)%string.
Proof.
  induction s as [|a s IH]; [reflexivity|].
  change (String a ((s ++ String c "") ++ r) = String a (s ++ String c r)).
  rewrite IH. reflexivity.
Qed.

Lemma split_from_word : forall (s cur : string),
  forallb (fun c => negb (Text.is_space c)) (list_ascii_of_string s) = true ->
  Text.split_from cur s
  = if Text.is_empty (cur ++ s)%string then [] else [(cur ++ s)%string].
Proof.
  induction s as [|c r IH]; intros cur Hs; cbn.
  - rewrite append_empty_r. reflexivity.
  - cbn in Hs. apply andb_true_iff in Hs as [Hc Hr].
    apply negb_true_iff in Hc. rewrite Hc, (IH _ Hr), append_snoc.
    reflexivity.
Qed.

Lemma split_from_blank : forall (a cur b : string) (c : ascii),
  forallb (fun c => negb (Text.is_space c)) (list_ascii_of_string a) = true ->
  Text.is_space c = true ->
  Text.split_from cur (a ++ String c b)
  = if Text.is_empty (cur ++ a)%string then Text.split_from "" b
    else (cur ++ a)%string :: Text.split_from "" b.
Proof.
  induction a as [|x r IH]; intros cur b c Ha Hc.
  - change ("" ++ String c b)%string with (String c b). cbn [Text.split_from].
    rewrite Hc, append_empty_r. reflexivity.
  - change (String x r ++ String c b)%string with (String x (r ++ String c b)).
    cbn [Text.split_from]. cbn in Ha. apply andb_true_iff in Ha as [Hx Hr].
    apply negb_true_iff in Hx. rewrite Hx, (IH _ _ _ Hr Hc), append_snoc.
    reflexivity.
Qed.

Lemma rstrip_word : forall (s : string),
  forallb (fun c => negb (Text.is_space c)) (list_ascii_of_string s) = true ->
  Text.rstrip s = s.
Proof.
  induction s as [|c r IH]; intros Hs; [reflexivity|].
  cbn in *. apply andb_true_iff in Hs as [Hc Hr]. rewrite (IH Hr).
  apply negb_true_iff in Hc. rewrite Hc. destruct r; reflexivity.
Qed.

Lemma rstrip_before_word : forall (pre s : string),
  s <> "" ->
  forallb (fun c => negb (Text.is_space c)) (list_ascii_of_string s) = true ->
  Text.rstrip (pre ++ s) = (pre ++ s)%string.
Proof.
  induction pre as [|c r IH]; intros s Hne Hs.
  - apply rstrip_word, Hs.
  - change (String c r ++ s)%string with (String c (r ++ s)).
    cbn [Text.rstrip]. rewrite (IH s Hne Hs).
    destruct (r ++ s)%string eqn:Hrs; [|reflexivity].
    destruct r; [contradiction|discriminate].
Qed.

Lemma one_argument_line (wxid : string) :
  wxid <> "" ->
  forallb (fun c => negb (Text.is_space c)) (list_ascii_of_string wxid) = true ->
  Text.strip ("sms_monitor " ++ wxid) = ("sms_monitor " ++ wxid)%string
  /\ Text.startswith "sms_monitor " ("sms_monitor " ++ wxid) = true
  /\ Text.split ("sms_monitor " ++ wxid) = ["sms_monitor"; wxid].
Proof.
  intros Hne Hw. split; [|split].
  - unfold Text.strip. change (Text.lstrip ("sms_monitor " ++ wxid))
      with ("sms_monitor " ++ wxid)%string.
    apply rstrip_before_word; assumption.
  - cbn. destruct wxid; reflexivity.
  - unfold Text.split.
    change ("sms_monitor " ++ wxid)%string with ("sms_monitor" ++ String " " wxid)%string.
    rewrite split_from_blank by reflexivity.
    rewrite (split_from_word wxid "" Hw).
    destruct wxid; [contradiction|reflexivity].
Qed.



Example monitor_with_receiver_adds :
  users (self (snd (handle_monitor_command (env_of push_ok ["wxid_admin"]) "bot"
                      (chat "wxid_admin" "sms_monitor wxid_b 13800000000")
                      world_a)))
  = [("wxid_a", ""); ("wxid_b", "13800000000")].
Proof. reflexivity. Qed.

(** * Further properties of the handlers and signal paths *)

(** Case analysis on every test of a handler body. *)
Ltac split_tests :=
  repeat match goal with
         | |- context [if ?c then _ else _] => destruct c eqn:?
         | |- context [match ?x with _ => _ end] => destruct x eqn:?
         end.

(** ** Which handler can raise *)











(** ** The arity guards behind a prefix test *)

Lemma rstrip_empty_or_ends_nonblank : forall (s : string),
  match last_char (Text.rstrip s) with
  | Some c => Text.is_space c = false
  | None => Text.rstrip s = ""
  end.
Proof.
  induction s as [|c r IH]; [reflexivity|].
  cbn [Text.rstrip]. destruct (Text.rstrip r) as [|c' r'] eqn:Hr.
  - destruct (Text.is_space c) eqn:Hc; cbn [last_char]; [reflexivity|assumption].
  - change (last_char (String c (String c' r'))) with (last_char (String c' r')).
    destruct (last_char (String c' r')); [assumption|discriminate].
Qed.

Lemma prefix_split : forall (p s : string),
  String.prefix p s = true -> exists rest, s = (p ++ rest)%string.
Proof.
  induction p as [|c p IH]; intros s H.
  - exists s. reflexivity.
  - destruct s as [|c' s]; [discriminate|]. cbn in H.
    destruct (Ascii.ascii_dec c c') as [->|]; [|discriminate].
    destruct (IH s H) as [rest ->]. exists rest. reflexivity.
Qed.

Lemma last_char_app (p s : string) :
  s <> "" -> last_char (p ++ s) = last_char s.
Proof.
  intros Hs. induction p as [|c p IH]; [reflexivity|].
  change (String c p ++ s)%string with (String c (p ++ s)). cbn [last_char].
  destruct (p ++ s)%string eqn:Hps; [|assumption].
  destruct p; [contradiction|discriminate].
Qed.

Lemma last_char_app_empty (p : string) : last_char (p ++ "") = last_char p.
Proof. rewrite append_empty_r. reflexivity. Qed.

Lemma split_from_nil : forall (s cur : string),
  Text.split_from cur s = [] ->
  cur = "" /\ forall c, last_char s = Some c -> Text.is_space c = true.
Proof.
  induction s as [|c r IH]; intros cur H; cbn in H.
  - destruct cur; [|discriminate]. split; [reflexivity|discriminate].
  - destruct (Text.is_space c) eqn:Hc.
    + destruct cur; cbn in H; [|discriminate].
      destruct (IH _ H) as [_ Hlast]. split; [reflexivity|].
      intros x. cbn [last_char]. destruct r; [congruence|apply Hlast].
    + destruct (IH _ H) as [Hcur _]. destruct cur; discriminate.
Qed.

(** After the prefix test on the stripped text, the text has a second
    part: a command word followed by a blank cannot be all there is,
    since the stripped text does not end in a blank. *)
Lemma second_part_exists (cmd content : string) :
  cmd <> "" -> blank_free cmd = true ->
  Text.startswith (cmd ++ " ") (Text.strip content) = true ->
  (length (Text.split (Text.strip content)) <? 2)%nat = false.
Proof.
  intros Hcmd Hfree Hpre. unfold Text.startswith in Hpre.
  apply prefix_split in Hpre as [rest Hrest].
  assert (Hshape : Text.strip content = (cmd ++ String " " rest)%string).
  { rewrite Hrest. clear. induction cmd as [|c cmd IH]; [reflexivity|].
    change (String c cmd ++ " ")%string with (String c (cmd ++ " ")).
    change ((String c (cmd ++ " ")) ++ rest)%string
      with (String c ((cmd ++ " ") ++ rest)).
    rewrite IH. reflexivity. }
  pose proof (rstrip_empty_or_ends_nonblank (Text.lstrip content)) as Hend.
  fold (Text.strip content) in Hend. rewrite Hshape in Hend |- *.
  unfold Text.split. rewrite split_from_blank by (assumption || reflexivity).
  change ("" ++ cmd)%string with cmd.
  destruct cmd as [|c cmd]; [contradiction|]. cbn [Text.is_empty].
  destruct (Text.split_from "" rest) as [|x xs] eqn:Hsplit; [|reflexivity].
  exfalso. apply split_from_nil in Hsplit as [_ Hblank].
  rewrite last_char_app in Hend by discriminate. cbn [last_char] in Hend.
  destruct rest as [|r0 rest]; [discriminate|].
  destruct (last_char (String r0 rest)) as [x|] eqn:Hl.
  - rewrite (Hblank x eq_refl) in Hend. discriminate.
  - discriminate.
Qed.

(** X2.  The arity guard [len(parts) < 2] of [sms_monitor],
    [sms_unmonitor], [sms_channel] and [sms_set_wxid] never fires: a text
    that passes the handler's prefix test has at least two parts, so the
    usage reply of these handlers is never sent. *)
Theorem arity_guard_never_fires (c : command) (content : string) :
  c = AddEntity \/ c = RemoveEntity \/ c = ChangeChannel \/ c = SetWxid ->
  invokes c (Text.strip content) = true ->
  (length (Text.split (Text.strip content)) <? 2)%nat = false.
Proof.
  intros [-> | [-> | [-> | ->]]] H; cbn [invokes] in H.
  - apply (second_part_exists "sms_monitor"); [discriminate|reflexivity|exact H].
  - apply (second_part_exists "sms_unmonitor"); [discriminate|reflexivity|exact H].
  - apply (second_part_exists "sms_channel"); [discriminate|reflexivity|exact H].
  - apply (second_part_exists "sms_set_wxid"); [discriminate|reflexivity|exact H].
Qed.

Lemma arity_guard_never_fires_witness :
  invokes RemoveEntity (Text.strip "  sms_unmonitor   wxid_a  ") = true
  /\ (length (Text.split (Text.strip "  sms_unmonitor   wxid_a  ")) <? 2)%nat = false.
Proof.
  split; [reflexivity|].
  exact (arity_guard_never_fires RemoveEntity "  sms_unmonitor   wxid_a  "
           (or_intror (or_introl eq_refl)) eq_refl).
Defined.

(** ** The resend interval on the gated paths *)














Example gated_paths_two_deliveries :
  deliveries "wxid_a"
    (timeline (env_of push_ok [])
       [(0, LogLine "wxid_a"); (1, LogLine "wxid_a"); (2, LogLine "wxid_a");
        (3700, StatusPoll (PollHttp 500 ""))] world_a) = [2; 3700].
Proof. vm_compute. reflexivity. Qed.

(** ** What the signal paths post and what they leave alone *)

Lemma with_trace_same (w : World) : with_trace (trace w ++ []) w = w.
Proof. destruct w; unfold with_trace; cbn. rewrite app_nil_r. reflexivity. Qed.

Lemma extends_refl (P : io_event -> Prop) (w : World) : extends_with P w w.
Proof. exists []. split; [symmetry; apply with_trace_same|constructor]. Qed.

Lemma extends_trans (P : io_event -> Prop) (w1 w2 w3 : World) :
  extends_with P w1 w2 -> extends_with P w2 w3 -> extends_with P w1 w3.
Proof.
  intros (e1 & -> & H1) (e2 & -> & H2). exists (e1 ++ e2). split.
  - unfold with_trace. cbn. rewrite app_assoc. reflexivity.
  - apply Forall_app. auto.
Qed.

Lemma extends_emit (P : io_event -> Prop) (e : io_event) (w : World) :
  P e -> extends_with P w (snd (emit e w)).
Proof. intros H. exists [e]. split; [reflexivity|repeat constructor; exact H]. Qed.

Lemma extends_self (P : io_event -> Prop) (w w' : World) :
  extends_with P w w' ->
  self w' = self w /\ failure_count w' = failure_count w
  /\ last_notification_time w' = last_notification_time w.
Proof. intros (evs & -> & _). repeat split. Qed.

Lemma attempts_events (resp : nat -> push_response) (p : payload)
    (times interval : Z) (P : io_event -> Prop) :
  (forall r, P (Post OfflineNotice p r)) -> (forall n, P (Sleep n)) ->
  forall retries, Forall P (snd (push_attempts resp p times interval retries)).
Proof.
  intros Hpost Hsleep. induction retries as [|retry rest IH];
    cbn [push_attempts]; [constructor|].
  destruct (classify (resp retry)); cbn [snd]; [repeat constructor; auto..|].
  destruct (push_attempts resp p times interval rest) as [ok evs]. cbn [snd] in *.
  constructor; [auto|]. apply Forall_app. split; [|assumption].
  destruct (_ <? _); repeat constructor; auto.
Qed.

Lemma send_extends (E : Env) (x to : string) (w : World) :
  Dict.mem x (users (self w)) = true ->
  extends_with (monitored_notice (users (self w))) w
    (snd (send_pushplus_notification E x to w)).
Proof.
  intros Hmon. unfold send_pushplus_notification.
  destruct (Text.is_empty _); [apply extends_refl|]. cbv zeta.
  pose proof (attempts_events
                (fun i => push_api E (count_posts (trace w) + i)%nat)
                (notification_payload (self w) x)
                (retry_times (self w)) (retry_interval (self w))
                (monitored_notice (users (self w)))) as H.
  destruct (push_attempts _ _ _ _ _) as [ok evs] eqn:Hrun.
  exists evs. split; [reflexivity|].
  specialize (H ltac:(intros r; split; [reflexivity|split; [exact Hmon|reflexivity]]) ltac:(intros; exact I)
                (range (retry_times (self w)))).
  rewrite Hrun in H. exact H.
Qed.

Lemma process_extends (E : Env) (x : string) (w : World) :
  extends_with (monitored_notice (users (self w))) w
    (snd (process_heartbeat_failure E x w)).
Proof.
  unfold process_heartbeat_failure, bind, get_self, ret.
  destruct (Dict.mem x (users (self w))) eqn:Hmon; [|apply extends_refl].
  pose proof (send_extends E x "" w Hmon) as H.
  destruct (send_pushplus_notification E x "" w). exact H.
Qed.

Lemma when_some_process_extends (E : Env) (o : option string) (w : World) :
  extends_with (monitored_notice (users (self w))) w
    (snd (when_some o (process_heartbeat_failure E) w)).
Proof. destruct o; [apply process_extends|apply extends_refl]. Qed.

(** Sequencing two steps that keep the plugin object. *)
Lemma extends_bind {A B} (u : list (string * string)) (f : M A) (g : A -> M B)
    (w : World) :
  users (self w) = u ->
  (forall v, users (self v) = u ->
             extends_with (monitored_notice u) v (snd (f v))) ->
  (forall a v, users (self v) = u ->
               extends_with (monitored_notice u) v (snd (g a v))) ->
  extends_with (monitored_notice u) w (snd (bind f g w)).
Proof.
  intros Hu Hf Hg. unfold bind. specialize (Hf w Hu).
  destruct (f w) as [a w1]. cbn [snd] in Hf.
  apply (extends_trans _ _ w1); [exact Hf|]. apply Hg.
  destruct (extends_self _ _ _ Hf) as [-> _]. exact Hu.
Qed.

Ltac block_cases :=
  repeat match goal with
         | |- context [if ?c then _ else _] => destruct c
         end;
  try apply extends_refl.

Lemma forwarded_log_extends (E : Env) (m : message) (w : World) :
  extends_with (monitored_notice (users (self w))) w
    (snd (forwarded_log_block E m w)).
Proof.
  unfold forwarded_log_block. block_cases.
  all: unfold bind, get_self.
  all: pose proof (when_some_process_extends E
                     (forwarded_log_target (self w) m
                        (Text.re_search_wxid (Content m))) w) as H.
  all: destruct (when_some _ _ w) as [[] w1]; cbn [snd] in H.
  all: apply (extends_trans _ _ w1); [exact H|].
  all: apply extends_emit; exact I.
Qed.

Lemma system_message_extends (E : Env) (m : message) (w : World) :
  extends_with (monitored_notice (users (self w))) w
    (snd (system_message_block E m w)).
Proof.
  unfold system_message_block. block_cases.
  all: unfold bind, get_self; apply when_some_process_extends.
Qed.

Lemma message_string_extends (E : Env) (m : message) (w : World) :
  extends_with (monitored_notice (users (self w))) w
    (snd (message_string_block E m w)).
Proof.
  unfold message_string_block. cbv zeta.
  destruct (_ || _); [|apply extends_refl].
  unfold bind. destruct (emit _ w) as [[] w1] eqn:Hemit.
  assert (H1 : extends_with (monitored_notice (users (self w))) w w1).
  { pose proof (extends_emit (monitored_notice (users (self w)))
                  (AppendLog "错误消息") w I) as H. rewrite Hemit in H. exact H. }
  apply (extends_trans _ _ w1); [exact H1|].
  destruct (extends_self _ _ _ H1) as [<- _].
  destruct (Text.re_search_wxid _); [|apply extends_refl].
  unfold get_self. destruct (_ || _); [apply process_extends|apply extends_refl].
Qed.

Lemma offline_hint_extends (E : Env) (m : message) (w : World) :
  extends_with (monitored_notice (users (self w))) w
    (snd (offline_hint_block E m w)).
Proof.
  unfold offline_hint_block. cbv zeta.
  destruct (_ || _); [|apply extends_refl].
  unfold bind. destruct (emit _ w) as [[] w1] eqn:Hemit.
  assert (H1 : extends_with (monitored_notice (users (self w))) w w1).
  { pose proof (extends_emit (monitored_notice (users (self w)))
                  (AppendLog "系统消息提示离线") w I) as H. rewrite Hemit in H. exact H. }
  apply (extends_trans _ _ w1); [exact H1|].
  destruct (extends_self _ _ _ H1) as [<- _].
  unfold get_self. apply when_some_process_extends.
Qed.

Lemma fetch_failure_extends (E : Env) (m : message) (w : World) :
  extends_with (monitored_notice (users (self w))) w
    (snd (fetch_failure_block E m w)).
Proof.
  unfold fetch_failure_block. cbv zeta.
  destruct (_ || _); [|apply extends_refl].
  unfold bind. destruct (emit _ w) as [[] w1] eqn:Hemit.
  assert (H1 : extends_with (monitored_notice (users (self w))) w w1).
  { pose proof (extends_emit (monitored_notice (users (self w)))
                  (AppendLog "检测到消息失败") w I) as H. rewrite Hemit in H. exact H. }
  apply (extends_trans _ _ w1); [exact H1|].
  destruct (extends_self _ _ _ H1) as [<- _].
  unfold get_self. apply when_some_process_extends.
Qed.

Lemma capture_frame (E : Env) (b : string) (m : message) (w : World) :
  let w0 := with_self (set_bot (Some b) (self w)) w in
  fst (capture_error_messages E b m w) = true
  /\ extends_with (monitored_notice (users (self w))) w0
       (snd (capture_error_messages E b m w))
  /\ (enable (self w) = false -> snd (capture_error_messages E b m w) = w0).
Proof.
  intros w0. unfold capture_error_messages, bind, modify_self, get_self.
  cbn [self with_self set_bot enable]. fold w0.
  destruct (enable (self w)); cbn [negb].
  2: { repeat split. apply extends_refl. }
  change (users (self w)) with (users (self w0)).
  pose proof (forwarded_log_extends E m w0) as H1.
  destruct (forwarded_log_block E m w0) as [[] w1]. cbn [snd] in H1.
  pose proof (system_message_extends E m w1) as H2.
  destruct (system_message_block E m w1) as [[] w2]. cbn [snd] in H2.
  pose proof (message_string_extends E m w2) as H3.
  destruct (message_string_block E m w2) as [[] w3]. cbn [snd] in H3.
  pose proof (offline_hint_extends E m w3) as H4.
  destruct (offline_hint_block E m w3) as [[] w4]. cbn [snd] in H4.
  pose proof (fetch_failure_extends E m w4) as H5.
  destruct (fetch_failure_block E m w4) as [[] w5]. cbn [snd] in H5.
  destruct (extends_self _ _ _ H1) as [E1 _].
  destruct (extends_self _ _ _ H2) as [E2 _].
  destruct (extends_self _ _ _ H3) as [E3 _].
  destruct (extends_self _ _ _ H4) as [E4 _].
  rewrite E4, E3, E2, E1 in H5. rewrite E3, E2, E1 in H4.
  rewrite E2, E1 in H3. rewrite E1 in H2.
  split; [reflexivity|]. split; [|discriminate].
  cbn [ret snd].
  eapply extends_trans; [exact H1|]. eapply extends_trans; [exact H2|].
  eapply extends_trans; [exact H3|]. eapply extends_trans; [exact H4|exact H5].
Qed.


Lemma callback_posts (E : Env) (now : Z) (x : string) (w : World) :
  self (snd (heartbeat_failure_callback E now x w)) = self w
  /\ exists evs,
       trace (snd (heartbeat_failure_callback E now x w)) = trace w ++ evs
       /\ Forall (monitored_notice (users (self w))) evs.
Proof.
  destruct (Dict.mem x (users (self w))) eqn:Hmon.
  2: { rewrite callback_ignores_unmonitored by assumption. split; [reflexivity|].
       exists []. split; [symmetry; apply app_nil_r|constructor]. }
  rewrite (callback_unfold E now x w Hmon). cbv zeta.
  set (w1 := with_failure_count _ w).
  destruct (_ && _).
  2: { split; [reflexivity|]. exists [].
       split; [symmetry; apply app_nil_r|constructor]. }
  destruct (send_extends E x "" w1 Hmon) as (evs & Hsnd & Hall).
  destruct (fst (send_pushplus_notification E x "" w1)); rewrite Hsnd;
    (split; [reflexivity|exists evs; split; [reflexivity|exact Hall]]).
Qed.

Lemma notify_users_posts (E : Env) (now : Z) : forall wxids w,
  exists evs,
    trace (snd (notify_users E now wxids w)) = trace w ++ evs
    /\ Forall (monitored_notice (users (self w))) evs.
Proof.
  induction wxids as [|x rest IH]; intros w.
  { exists []. split; [symmetry; apply app_nil_r|constructor]. }
  cbn [notify_users]. destruct (resend_allowed _ _); [|apply IH].
  pose proof (process_extends E x w) as Hp.
  destruct (process_heartbeat_failure E x w) as [[] w1]. cbn [snd] in Hp.
  destruct Hp as (evs1 & -> & H1).
  destruct (IH (with_last_notification_time
                  (<[x:=now]> (last_notification_time (with_trace (trace w ++ evs1) w)))
                  (with_trace (trace w ++ evs1) w))) as (evs2 & -> & H2).
  exists (evs1 ++ evs2). cbn. split; [symmetry; apply app_assoc|].
  apply Forall_app. auto.
Qed.

(** X5.  The gated paths leave the plugin object alone and post only for
    the registry.  Handling a log line or a status poll changes no
    attribute of the plugin, and every post it makes is an offline notice
    for an entity of the registry, without a receiver in the request. *)
Theorem gated_step_posts (E : Env) (now : Z) (i : input) (w : World) :
  gated i = true ->
  self (step E now i w) = self w
  /\ exists evs,
       trace (step E now i w) = trace w ++ evs
       /\ Forall (monitored_notice (users (self w))) evs.
Proof.
  destruct i as [b m|x|r]; [discriminate| |]; intros _; cbn [step].
  - apply callback_posts.
  - unfold api_heartbeat_iteration. destruct (api_status r); cbn [snd ret].
    1,3: split; [reflexivity|]; exists [];
         split; [symmetry; apply app_nil_r|constructor].
    split; [apply notify_users_frame|apply notify_users_posts].
Qed.

Lemma gated_step_posts_witness :
  gated (StatusPoll (PollHttp 500 "")) = true
  /\ self (step (env_of push_ok []) 0 (StatusPoll (PollHttp 500 "")) world_a)
     = self world_a.
Proof.
  split; [reflexivity|].
  exact (proj1 (gated_step_posts (env_of push_ok []) 0 (StatusPoll (PollHttp 500 ""))
                  world_a eq_refl)).
Defined.

(** ** Attributes that nothing writes *)

Lemma quiet_refl (s : Plugin) : quiet_fields s s.
Proof. split; [|split]; reflexivity. Qed.

Lemma quiet_trans (s1 s2 s3 : Plugin) :
  quiet_fields s1 s2 -> quiet_fields s2 s3 -> quiet_fields s1 s3.
Proof.
  intros (A1 & B1 & C1) (A2 & B2 & C2). repeat split; try congruence.
  intros x Hx. apply C1, C2, Hx.
Qed.

Ltac quiet_done :=
  cbn; (split; [|split]);
  try reflexivity; try (apply subseteq_difference_l; reflexivity).

Lemma handler_quiet (c : command) (E : Env) (b : string) (m : message) (w : World) :
  quiet_fields (self w) (self (snd (handler c E b m w))).
Proof.
  destruct c; cbn [handler].
  - unfold handle_monitor_command. enter_handler. split_tests; quiet_done.
  - unfold handle_unmonitor_command. enter_handler. split_tests; quiet_done.
  - unfold handle_status_command. enter_handler. split_tests; quiet_done.
  - unfold handle_reload_command, load_config. enter_handler. split_tests; quiet_done.
  - unfold handle_test_command, send_test_message. enter_handler.
    split_tests; quiet_done.
  - unfold handle_channel_command. enter_handler. split_tests; quiet_done.
  - unfold handle_set_wxid_command, send_test_message. enter_handler.
    destruct (config E); split_tests; quiet_done.
  - unfold handle_message_template_command. enter_handler. split_tests; quiet_done.
Qed.

Lemma capture_bot_id_quiet (b : string) (m : message) (w : World) :
  quiet_fields (self w) (self (snd (capture_bot_id b m w))).
Proof.
  unfold capture_bot_id. enter_handler. split_tests; quiet_done.
Qed.

Lemma capture_quiet (E : Env) (b : string) (m : message) (w : World) :
  quiet_fields (self w) (self (snd (capture_error_messages E b m w))).
Proof.
  destruct (capture_frame E b m w) as (_ & H & _).
  destruct (extends_self _ _ _ H) as [-> _]. cbn. split; [|split]; reflexivity.
Qed.

Lemma handlers_quiet (E : Env) (b : string) (m : message) :
  forall (cs : list command) (o : outcome) (w : World),
  quiet_fields (self w)
    (self (snd (fold_left
                  (fun acc c =>
                     match acc with
                     | (Returned, w') => handler c E b m w'
                     | stopped => stopped
                     end) cs (o, w)))).
Proof.
  induction cs as [|c cs IH]; intros o w; [apply quiet_refl|].
  cbn [fold_left]. destruct o.
  - pose proof (handler_quiet c E b m w) as H.
    destruct (handler c E b m w) as [o' w']. cbn [snd] in H.
    eapply quiet_trans; [exact H|apply IH].
  - apply IH.
Qed.

Lemma step_quiet (E : Env) (now : Z) (i : input) (w : World) :
  quiet_fields (self w) (self (step E now i w)).
Proof.
  destruct i as [b m|x|r]; cbn [step].
  - pose proof (capture_bot_id_quiet b m w) as H0.
    destruct (capture_bot_id b m w) as [? w0]. cbn [snd] in H0.
    pose proof (capture_quiet E b m w0) as H1.
    destruct (capture_error_messages E b m w0) as [? w1]. cbn [snd] in H1.
    eapply quiet_trans; [exact H0|]. eapply quiet_trans; [exact H1|].
    apply handlers_quiet.
  - destruct (callback_posts E now x w) as [-> _]. apply quiet_refl.
  - unfold api_heartbeat_iteration. destruct (api_status r); cbn [snd ret];
      try apply quiet_refl.
    destruct (notify_users_frame E now (Dict.keys (users (self w))) w) as [-> _].
    apply quiet_refl.
Qed.

(** X6.  Three attributes are never written.  No text message, log line
    or status poll changes [notification_sent] or [heartbeat_failures],
    and none adds an entity to [offline_users]; entities only leave that
    set, through [sms_unmonitor]. *)
Theorem step_never_records (E : Env) (now : Z) (i : input) (w : World) :
  notification_sent (self (step E now i w)) = notification_sent (self w)
  /\ heartbeat_failures (self (step E now i w)) = heartbeat_failures (self w)
  /\ offline_users (self (step E now i w)) ⊆ offline_users (self w).
Proof. exact (step_quiet E now i w). Qed.

(** ** The registry under the commands *)

Lemma get_set_eq {V} (k : string) (v : V) (d : list (string * V)) :
  Dict.get k (Dict.set k v d) = Some v.
Proof.
  induction d as [|[k' v'] r IH]; cbn.
  - rewrite String.eqb_refl. reflexivity.
  - destruct (String.eqb_spec k k') as [->|Hne]; cbn.
    + rewrite String.eqb_refl. reflexivity.
    + destruct (String.eqb_spec k k'); [contradiction|exact IH].
Qed.

Lemma get_set_ne {V} (x k : string) (v : V) (d : list (string * V)) :
  x <> k -> Dict.get x (Dict.set k v d) = Dict.get x d.
Proof.
  intros Hne. induction d as [|[k' v'] r IH]; cbn.
  - destruct (String.eqb_spec x k); [contradiction|reflexivity].
  - destruct (String.eqb_spec k k') as [->|Hk]; cbn.
    + destruct (String.eqb_spec x k'); [contradiction|reflexivity].
    + destruct (String.eqb_spec x k'); [reflexivity|exact IH].
Qed.


Lemma keys_set_present {V} (k : string) (v : V) (d : list (string * V)) :
  Dict.mem k d = true -> Dict.keys (Dict.set k v d) = Dict.keys d.
Proof.
  unfold Dict.mem, Dict.keys. induction d as [|[k' v'] r IH]; cbn; [discriminate|].
  destruct (String.eqb_spec k k') as [->|]; [reflexivity|]. intros H. cbn.
  rewrite IH by assumption. reflexivity.
Qed.




Example channel_rejects_unknown :
  pushplus_channel
    (self (snd (handle_channel_command (env_of push_ok ["wxid_admin"]) "bot"
                  (chat "wxid_admin" "sms_channel telegram") world_a))) = "wechat".
Proof. reflexivity. Qed.





Example set_wxid_drops_old_primary :
  users (self (snd (handle_set_wxid_command (env_of push_ok ["wxid_admin"]) "bot"
                      (chat "wxid_admin" "sms_set_wxid wxid_b") world_a)))
  = [("wxid_b", "")].
Proof. vm_compute. reflexivity. Qed.

(** ** Reloading *)

Lemma load_config_enable (E : Env) (s : Plugin) :
  enable (load_config E s) = true
  <-> exists c, config E = ConfigParsed c /\ c_enable c = true /\ c_token c <> "".
Proof.
  unfold load_config. destruct (config E) as [| |c]; cbn [enable].
  1,2: split; [discriminate|intros (c & ? & _); discriminate].
  rewrite andb_true_iff, negb_true_iff. split.
  - intros [H1 H2]. exists c. repeat split; [assumption|].
    intros Htok. rewrite Htok in H2. discriminate.
  - intros (c' & Hc' & H1 & H2). injection Hc' as <-. split; [assumption|].
    destruct (c_token c); [contradiction|reflexivity].
Qed.

Lemma load_config_users (E : Env) (s : Plugin) :
  users (load_config E s)
  = if Text.is_empty (current_wxid (load_config E s)) then []
    else [(current_wxid (load_config E s), "")].
Proof.
  unfold load_config. destruct (config E) as [| |c]; cbn [users current_wxid];
    try destruct (Text.is_empty (c_current_wxid c)); reflexivity.
Qed.

Lemma load_config_unread (E : Env) (s : Plugin) :
  (forall c, config E <> ConfigParsed c) ->
  enable (load_config E s) = false /\ current_wxid (load_config E s) = ""
  /\ pushplus_token (load_config E s) = pushplus_token s
  /\ retry_times (load_config E s) = retry_times s
  /\ heartbeat_threshold (load_config E s) = heartbeat_threshold s.
Proof.
  intros Hno. unfold load_config. destruct (config E) as [| |c].
  1,2: repeat split.
  exfalso. apply (Hno c). reflexivity.
Qed.

Lemma reload_run (E : Env) (b : string) (m : message) (w : World) :
  enable (self w) = true ->
  is_admin E (SenderWxid m) = true ->
  String.eqb (Text.strip (Content m)) "sms_reload" = true ->
  let s1 := load_config E (set_bot (Some b) (self w)) in
  let s2 := if negb (enable s1) && check_task s1
            then set_check_task false s1 else s1 in
  handle_reload_command E b m w
  = (Returned,
     with_trace
       (trace w ++ [SendText (FromWxid m)
                      (Plain ("SMSNotifier配置已重新加载，插件现在"
                              ++ (if enable s1 then "已启用" else "已禁用"))%string)])
       (with_self s2 w)).
Proof.
  intros Hen Hadm Hcmd s1 s2.
  unfold handle_reload_command. enter_handler. rewrite Hen. cbn [negb].
  rewrite Hcmd, Hadm. cbn [negb andb]. cbn [self with_self]. fold s1.
  subst s2. destruct (enable s1); cbn [negb andb]; [reflexivity|].
  destruct (check_task s1); reflexivity.
Qed.

(** X10.  [sms_reload] from an administrator.  The plugin is enabled
    afterwards exactly when config.toml could be read, says so, and has a
    token.  The registry is reset to the primary entity of the file alone
    (entities added by command are forgotten), or to nothing.  The check
    task is never started; it is only stopped, when the plugin ends up
    disabled.  When the file is missing or unreadable the token and the
    retry settings stay as they were.  The failure records and
    notification times of the status task survive the reload. *)
Theorem reload_resets_registry (E : Env) (b : string) (m : message) (w : World) :
  enable (self w) = true ->
  is_admin E (SenderWxid m) = true ->
  String.eqb (Text.strip (Content m)) "sms_reload" = true ->
  let w' := snd (handle_reload_command E b m w) in
  let s' := self w' in
  (enable s' = true <->
     exists c, config E = ConfigParsed c /\ c_enable c = true /\ c_token c <> "")
  /\ users s' = (if Text.is_empty (current_wxid s') then []
                 else [(current_wxid s', "")])
  /\ check_task s' = check_task (self w) && enable s'
  /\ ((forall c, config E <> ConfigParsed c) ->
        enable s' = false /\ current_wxid s' = ""
        /\ pushplus_token s' = pushplus_token (self w)
        /\ retry_times s' = retry_times (self w)
        /\ heartbeat_threshold s' = heartbeat_threshold (self w))
  /\ failure_count w' = failure_count w
  /\ last_notification_time w' = last_notification_time w
  /\ exists text, trace w' = trace w ++ [SendText (FromWxid m) text].
Proof.
  intros Hen Hadm Hcmd w' s'. subst s' w'.
  rewrite (reload_run E b m w Hen Hadm Hcmd). cbv zeta.
  cbn [snd self with_self with_trace trace failure_count last_notification_time].
  set (s1 := load_config E (set_bot (Some b) (self w))).
  assert (Hct : check_task s1 = check_task (self w)).
  { subst s1. unfold load_config. destruct (config E); reflexivity. }
  assert (Hsame : forall f : Plugin -> string,
            (forall t s, f (set_check_task t s) = f s) ->
            f (if negb (enable s1) && check_task s1
               then set_check_task false s1 else s1) = f s1).
  { intros f Hf. destruct (negb (enable s1) && check_task s1); [apply Hf|reflexivity]. }
  assert (Hen2 : enable (if negb (enable s1) && check_task s1
                         then set_check_task false s1 else s1) = enable s1)
    by (destruct (negb (enable s1) && check_task s1); reflexivity).
  rewrite Hen2, (Hsame current_wxid) by reflexivity.
  split; [apply load_config_enable|].
  split.
  { destruct (negb (enable s1) && check_task s1); cbn [users set_check_task];
      apply load_config_users. }
  split.
  { rewrite <- Hct. clear Hsame Hen2 Hct.
    destruct (enable s1) eqn:He, (check_task s1) eqn:Hc; cbn [negb andb];
      cbn [check_task set_check_task]; rewrite ?Hc; reflexivity. }
  split.
  { intros Hno. rewrite (Hsame pushplus_token) by reflexivity.
    destruct (load_config_unread E (set_bot (Some b) (self w)) Hno)
      as (H1 & H2 & H3 & H4 & H5). fold s1 in H1, H2, H3, H4, H5.
    split; [exact H1|]. split; [exact H2|]. split; [exact H3|].
    destruct (negb (enable s1) && check_task s1); cbn [retry_times
      heartbeat_threshold set_check_task]; auto. }
  split; [reflexivity|]. split; [reflexivity|]. eexists. reflexivity.
Qed.

Lemma reload_resets_registry_witness :
  String.eqb (Text.strip " sms_reload ") "sms_reload" = true
  /\ users (self (snd (handle_reload_command (env_of push_ok ["wxid_admin"]) "bot"
                        (chat "wxid_admin" " sms_reload ")
                        (with_self (set_users [("wxid_a", ""); ("wxid_b", "139")]
                                      plugin_a) world_a)))) = [].
Proof.
  split; [reflexivity|].
  pose proof (reload_resets_registry (env_of push_ok ["wxid_admin"]) "bot"
                (chat "wxid_admin" " sms_reload ")
                (with_self (set_users [("wxid_a", ""); ("wxid_b", "139")] plugin_a)
                   world_a)
                eq_refl eq_refl eq_refl) as H.
  cbv zeta in H. destruct H as (_ & H & _). exact H.
Defined.

(** ** Learning the primary entity *)

(** X11.  [capture_bot_id] makes no call and lets every message pass.
    Once a primary entity is set it changes nothing but the bot handle.
    While none is set, the first sender whose id starts with [wxid_]
    becomes the primary entity and is put into the registry with an empty
    receiver, the other entries staying as they were; a sender with
    another id is ignored. *)
Theorem capture_bot_id_learns_once (b : string) (m : message) (w : World) :
  let r := capture_bot_id b m w in
  let s' := self (snd r) in
  fst r = true
  /\ trace (snd r) = trace w
  /\ failure_count (snd r) = failure_count w
  /\ last_notification_time (snd r) = last_notification_time w
  /\ (current_wxid (self w) <> "" -> s' = set_bot (Some b) (self w))
  /\ (Text.startswith "wxid_" (SenderWxid m) = false ->
        s' = set_bot (Some b) (self w))
  /\ (current_wxid (self w) = "" ->
      Text.startswith "wxid_" (SenderWxid m) = true ->
        current_wxid s' = SenderWxid m
        /\ Dict.get (SenderWxid m) (users s') = Some ""
        /\ forall x, x <> SenderWxid m ->
             Dict.get x (users s') = Dict.get x (users (self w))).
Proof.
  cbv zeta. unfold capture_bot_id. enter_handler.
  cbn [self with_self set_bot current_wxid].
  destruct (Text.is_empty (current_wxid (self w))) eqn:Hcur; cbn [andb].
  - destruct (Text.startswith "wxid_" (SenderWxid m)) eqn:Hpre; cbn.
    + refine (conj eq_refl (conj eq_refl (conj eq_refl (conj eq_refl
                (conj _ (conj _ _)))))).
      * intros Hne. destruct (current_wxid (self w)); [contradiction|discriminate].
      * discriminate.
      * intros _ _. split; [reflexivity|].
        split; [apply get_set_eq|intros x Hx; apply get_set_ne, Hx].
    + refine (conj eq_refl (conj eq_refl (conj eq_refl (conj eq_refl
                (conj _ (conj _ _)))))); [reflexivity|reflexivity|discriminate].
  - cbn. refine (conj eq_refl (conj eq_refl (conj eq_refl (conj eq_refl
                   (conj _ (conj _ _)))))); [reflexivity|reflexivity|].
    intros Hempty. rewrite Hempty in Hcur. discriminate.
Qed.

(** X12.  [sms_test] registers its sender.  When no primary entity is
    set, an administrator's [sms_test] makes the sender the primary
    entity and puts it into the registry with an empty receiver, whatever
    the form of the sender's id, and then posts the test notice for it. *)
Theorem sms_test_registers_sender (E : Env) (b : string) (m : message) (w : World) :
  enable (self w) = true ->
  Text.startswith "sms_test" (Text.strip (Content m)) = true ->
  is_admin E (SenderWxid m) = true ->
  current_wxid (self w) = "" ->
  SenderWxid m <> "" ->
  let w' := snd (handle_test_command E b m w) in
  current_wxid (self w') = SenderWxid m
  /\ Dict.get (SenderWxid m) (users (self w')) = Some ""
  /\ (forall x, x <> SenderWxid m ->
        Dict.get x (users (self w')) = Dict.get x (users (self w)))
  /\ List.filter is_post (trace w')
     = List.filter is_post (trace w)
       ++ [Post TestNotice (test_payload (self w') (SenderWxid m))
             (push_api E (count_posts (trace w)))].
Proof.
  intros Hen Hcmd Hadm Hcur Hsender w'.
  pose proof (test_command_run E b m w Hen Hcmd Hadm) as Hrun.
  cbv zeta in Hrun. rewrite Hcur in Hrun. cbn [Text.is_empty] in Hrun.
  cbn [current_wxid set_users set_current_wxid] in Hrun.
  specialize (Hrun Hsender). subst w'. rewrite Hrun.
  cbn [snd self with_self with_trace trace current_wxid set_users
         set_current_wxid users].
  split; [reflexivity|]. split; [apply get_set_eq|].
  split; [intros x Hx; apply get_set_ne, Hx|].
  rewrite List.filter_app. reflexivity.
Qed.

Lemma sms_test_registers_sender_witness :
  current_wxid (self (with_self (set_current_wxid "" plugin_a) world_a)) = ""
  /\ current_wxid
       (self (snd (handle_test_command (env_of push_ok ["laoxia"]) "bot"
                     (chat "laoxia" "sms_test")
                     (with_self (set_current_wxid "" plugin_a) world_a))))
     = "laoxia".
Proof.
  split; [reflexivity|].
  exact (proj1 (sms_test_registers_sender (env_of push_ok ["laoxia"]) "bot"
                  (chat "laoxia" "sms_test")
                  (with_self (set_current_wxid "" plugin_a) world_a)
                  eq_refl eq_refl eq_refl eq_refl ltac:(discriminate))).
Defined.

(** ** The status report *)

Lemma run_quiet (E : Env) : forall inputs w,
  quiet_fields (self w) (self (run E inputs w)).
Proof.
  induction inputs as [|[now i] rest IH]; intros w; [apply quiet_refl|].
  cbn [run]. eapply quiet_trans; [apply step_quiet|apply IH].
Qed.

(** X13.  The status report never shows an offline entity.  From a
    plugin that starts, as [__init__] leaves it, with no offline entity
    and no notification recorded, after any sequence of text messages,
    log lines and status polls, an administrator's [sms_status] answers
    with a report of zero offline entities, zero notified entities and an
    empty list, whatever notifications have been delivered meanwhile. *)
Theorem status_never_shows_offline
    (E : Env) (inputs : list (Z * input)) (w : World) (b : string) (m : message) :
  offline_users (self w) = ∅ ->
  notification_sent (self w) = ∅ ->
  let w1 := run E inputs w in
  enable (self w1) = true ->
  is_admin E (SenderWxid m) = true ->
  String.eqb (Text.strip (Content m)) "sms_status" = true ->
  exists report,
    snd (handle_status_command E b m w1)
    = with_trace (trace w1 ++ [SendText (FromWxid m) (StatusText report)])
        (with_self (set_bot (Some b) (self w1)) w1)
    /\ sr_users report = length (users (self w1))
    /\ sr_offline report = 0%nat
    /\ sr_notified report = 0%nat
    /\ sr_offline_list report = [].
Proof.
  intros Hoff Hsent w1 Hen Hadm Hcmd.
  destruct (run_quiet E inputs w) as (Hn & _ & Ho). fold w1 in Hn, Ho.
  assert (Hoff1 : offline_users (self w1) = ∅).
  { apply leibniz_equiv. rewrite Hoff in Ho. apply equiv_empty. exact Ho. }
  unfold handle_status_command. enter_handler. rewrite Hen. cbn [negb].
  rewrite Hcmd, Hadm. cbn [negb].
  cbn [enable pushplus_channel users offline_users notification_sent set_bot].
  eexists. split; [reflexivity|]. cbn [sr_users sr_offline sr_notified sr_offline_list].
  rewrite Hoff1, Hn, Hsent. repeat split.
Qed.

Lemma status_never_shows_offline_witness :
  offline_users (self world_a) = ∅
  /\ deliveries "wxid_a"
       (timeline (env_of push_ok ["wxid_admin"])
          [(0, LogLine "wxid_a"); (1, LogLine "wxid_a"); (2, LogLine "wxid_a")]
          world_a) = [2]
  /\ exists report,
       snd (handle_status_command (env_of push_ok ["wxid_admin"]) "bot"
              (chat "wxid_admin" "sms_status")
              (run (env_of push_ok ["wxid_admin"])
                 [(0, LogLine "wxid_a"); (1, LogLine "wxid_a"); (2, LogLine "wxid_a")]
                 world_a))
       = with_trace
           (trace (run (env_of push_ok ["wxid_admin"])
                     [(0, LogLine "wxid_a"); (1, LogLine "wxid_a");
                      (2, LogLine "wxid_a")] world_a)
            ++ [SendText (FromWxid (chat "wxid_admin" "sms_status")) (StatusText report)])
           (with_self
              (set_bot (Some "bot")
                 (self (run (env_of push_ok ["wxid_admin"])
                          [(0, LogLine "wxid_a"); (1, LogLine "wxid_a");
                           (2, LogLine "wxid_a")] world_a)))
              (run (env_of push_ok ["wxid_admin"])
                 [(0, LogLine "wxid_a"); (1, LogLine "wxid_a"); (2, LogLine "wxid_a")]
                 world_a))
       /\ sr_users report = length (users (self (run (env_of push_ok ["wxid_admin"])
                 [(0, LogLine "wxid_a"); (1, LogLine "wxid_a"); (2, LogLine "wxid_a")]
                 world_a)))
       /\ sr_offline report = 0%nat
       /\ sr_notified report = 0%nat
       /\ sr_offline_list report = [].
Proof.
  split; [reflexivity|]. split; [vm_compute; reflexivity|].
  exact (status_never_shows_offline (env_of push_ok ["wxid_admin"])
           [(0, LogLine "wxid_a"); (1, LogLine "wxid_a"); (2, LogLine "wxid_a")]
           world_a "bot" (chat "wxid_admin" "sms_status")
           eq_refl eq_refl eq_refl eq_refl eq_refl).
Defined.

(** ** Removing twice, and removing the unknown *)




(** ** Message templates *)



(** ** Delivery without an attempt *)

(** X16.  The receiver argument of the delivery client has no effect on
    what it does.  With no token configured, or with a [retry_times] that
    is not positive, the client makes no HTTP call at all and reports
    failure. *)
Theorem delivery_without_attempt (E : Env) (wxid to : string) (w : World) :
  (forall to', send_pushplus_notification E wxid to w
               = send_pushplus_notification E wxid to' w)
  /\ (pushplus_token (self w) = "" \/ retry_times (self w) <= 0 ->
        send_pushplus_notification E wxid to w = (false, w)).
Proof.
  split; [reflexivity|]. intros [Htok|Hretry]; unfold send_pushplus_notification.
  - rewrite Htok. reflexivity.
  - destruct (Text.is_empty _); [reflexivity|]. cbv zeta. unfold range.
    replace (Z.to_nat (retry_times (self w))) with 0%nat by lia. cbn.
    rewrite with_trace_same. reflexivity.
Qed.

Lemma delivery_without_attempt_witness :
  retry_times (self (with_self (Build_Plugin true false None "tok" "wechat" "html" ""
                                  2 0 60 3 [("wxid_a", "")] "wxid_a" ∅ ∅ ∅
                                  "t" "c" "tt" "tc" false) world_a)) <= 0
  /\ send_pushplus_notification (env_of push_ok []) "wxid_a" ""
       (with_self (Build_Plugin true false None "tok" "wechat" "html" ""
                     2 0 60 3 [("wxid_a", "")] "wxid_a" ∅ ∅ ∅
                     "t" "c" "tt" "tc" false) world_a)
     = (false,
        with_self (Build_Plugin true false None "tok" "wechat" "html" ""
                     2 0 60 3 [("wxid_a", "")] "wxid_a" ∅ ∅ ∅
                     "t" "c" "tt" "tc" false) world_a).
Proof.
  assert (H : retry_times
                (self (with_self (Build_Plugin true false None "tok" "wechat" "html" ""
                                    2 0 60 3 [("wxid_a", "")] "wxid_a" ∅ ∅ ∅
                                    "t" "c" "tt" "tc" false) world_a)) <= 0)
    by (cbn; lia).
  split; [exact H|].
  exact (proj2 (delivery_without_attempt (env_of push_ok []) "wxid_a" "" _)
           (or_intror H)).
Defined.

(** ** Rendering a template *)

Lemma brace_free_cons (c : ascii) (s : string) :
  brace_free (String c s) = negb (Ascii.eqb c "{"%char) && brace_free s.
Proof. reflexivity. Qed.

Lemma brace_free_app (a b : string) :
  brace_free (a ++ b) = brace_free a && brace_free b.
Proof.
  induction a as [|c a IH]; [reflexivity|].
  change (String c a ++ b)%string with (String c (a ++ b)).
  rewrite !brace_free_cons, IH. apply andb_assoc.
Qed.

Lemma no_key_at_plain_char (old' s : string) (c : ascii) :
  Ascii.eqb c "{"%char = false ->
  String.prefix (String "{"%char old') (String c s) = false.
Proof.
  intros Hc. cbn [String.prefix].
  destruct (Ascii.ascii_dec "{"%char c) as [<-|]; [discriminate|reflexivity].
Qed.

(** A text without an opening brace holds no placeholder. *)
Lemma replace_brace_free (old' new : string) : forall s,
  brace_free s = true -> replace (String "{"%char old') new s = s.
Proof.
  unfold replace. induction s as [|c s IH]; [reflexivity|].
  rewrite brace_free_cons, andb_true_iff, negb_true_iff. intros [Hc Hs].
  cbn [replace_from]. rewrite (no_key_at_plain_char old' s c Hc), (IH Hs).
  reflexivity.
Qed.

Lemma replace_after_plain (old' new : string) : forall pre rest,
  brace_free pre = true ->
  replace (String "{"%char old') new (pre ++ rest)
  = (pre ++ replace (String "{"%char old') new rest)%string.
Proof.
  unfold replace. induction pre as [|c pre IH]; intros rest; [reflexivity|].
  rewrite brace_free_cons, andb_true_iff, negb_true_iff. intros [Hc Hpre].
  change (String c pre ++ rest)%string with (String c (pre ++ rest)).
  cbn [replace_from]. rewrite (no_key_at_plain_char old' _ c Hc), (IH rest Hpre).
  reflexivity.
Qed.

Lemma prefix_app_self : forall (p s : string), String.prefix p (p ++ s) = true.
Proof.
  induction p as [|c p IH]; intros s; [destruct s; reflexivity|].
  change (String c p ++ s)%string with (String c (p ++ s)). cbn [String.prefix].
  destruct (Ascii.ascii_dec c c); [apply IH|contradiction].
Qed.

Lemma replace_skip (old new : string) : forall x rest,
  replace_from old new (String.length x) (x ++ rest) = replace_from old new 0 rest.
Proof.
  induction x as [|c x IH]; intros rest; [destruct rest; reflexivity|].
  change (String c x ++ rest)%string with (String c (x ++ rest)).
  cbn [String.length replace_from]. apply IH.
Qed.

(** The one occurrence of a placeholder between brace-free texts is
    replaced by its value. *)
Lemma replace_placeholder (old' new pre post : string) :
  brace_free pre = true -> brace_free post = true ->
  replace (String "{"%char old') new (pre ++ String "{"%char old' ++ post)
  = (pre ++ new ++ post)%string.
Proof.
  intros Hpre Hpost. rewrite replace_after_plain by assumption. f_equal.
  unfold replace.
  change (String "{"%char old' ++ post)%string with (String "{"%char (old' ++ post)).
  cbn [replace_from].
  change (String "{"%char (old' ++ post)) with (String "{"%char old' ++ post)%string.
  rewrite prefix_app_self.
  replace (String.length (String "{"%char old') - 1)%nat with (String.length old')
    by (cbn [String.length]; lia).
  rewrite replace_skip. f_equal. apply (replace_brace_free old' new post Hpost).
Qed.

(** Another placeholder is left where it is. *)
Lemma replace_other_placeholder (old' new key' pre post : string) :
  brace_free pre = true -> brace_free key' = true -> brace_free post = true ->
  String.prefix (String "{"%char old') (String "{"%char key' ++ post) = false ->
  replace (String "{"%char old') new (pre ++ String "{"%char key' ++ post)
  = (pre ++ String "{"%char key' ++ post)%string.
Proof.
  intros Hpre Hkey Hpost Hno. rewrite replace_after_plain by assumption. f_equal.
  unfold replace.
  change (String "{"%char key' ++ post)%string with (String "{"%char (key' ++ post))
    in *.
  cbn [replace_from]. rewrite Hno. f_equal.
  apply (replace_brace_free old' new). rewrite brace_free_app, Hkey, Hpost.
  reflexivity.
Qed.

(** X17.  Rendering a template.  A text without an opening brace is
    sent as it stands.  A text made of one placeholder between brace-free
    texts is rendered with the placeholder's value in its place, for each
    of the six placeholders ({wxid}, {time}, {date}, {hour}, {bot_name},
    {bot_wxid}), when the value itself has no opening brace. *)
Theorem template_rendering (R : render_env) (s : Plugin) (template wxid : string) :
  (brace_free template = true ->
     format_message_template R s template wxid = template)
  /\ (forall key value pre post,
        In (key, value) (replacements R s wxid) ->
        brace_free pre = true -> brace_free post = true ->
        brace_free value = true ->
        format_message_template R s (pre ++ key ++ post) wxid
        = (pre ++ value ++ post)%string).
Proof.
  split.
  - intros Hfree. unfold format_message_template, replacements.
    cbn [fold_left fst snd].
    repeat rewrite (replace_brace_free _ _ template Hfree). reflexivity.
  - intros key value pre post Hin Hpre Hpost Hval.
    assert (Hall : brace_free (pre ++ value ++ post) = true)
      by (rewrite !brace_free_app, Hpre, Hpost, Hval; reflexivity).
    unfold format_message_template, replacements in *.
    cbn [fold_left fst snd].
    destruct Hin as [H|[H|[H|[H|[H|[H|[]]]]]]]; injection H as <- <-;
      repeat (rewrite (replace_other_placeholder _ _ _ pre post)
                by (assumption || reflexivity));
      rewrite (replace_placeholder _ _ pre post) by assumption;
      repeat rewrite (replace_brace_free _ _ _ Hall);
      reflexivity.
Qed.

Lemma template_rendering_witness :
  brace_free "离线通知" = true
  /\ format_message_template
       {| now_time := "2025-01-01 08:00:00"; now_date := "2025-01-01";
          now_hour := "08:00"; bot_name := "微信机器人" |}
       plugin_a "离线通知" "wxid_a" = "离线通知".
Proof.
  split; [reflexivity|].
  exact (proj1 (template_rendering
                  {| now_time := "2025-01-01 08:00:00"; now_date := "2025-01-01";
                     now_hour := "08:00"; bot_name := "微信机器人" |}
                  plugin_a "离线通知" "wxid_a") eq_refl).
Defined.

Example default_title_rendered :
  format_message_template
    {| now_time := "2025-01-01 08:00:00"; now_date := "2025-01-01";
       now_hour := "08:00"; bot_name := "微信机器人" |}
    plugin_a "微信离线通知 - {time}" "wxid_a"
  = "微信离线通知 - 2025-01-01 08:00:00".
Proof. reflexivity. Qed.

(** ** The filter on the standard error stream *)

Lemma monitor_forwarded (file_ok : nat -> bool) : forall reads i,
  forwarded (stderr_monitor_from file_ok i reads) = until_eof reads.
Proof.
  induction reads as [|line rest IH]; intros i; [reflexivity|].
  cbn [stderr_monitor_from until_eof].
  destruct (Text.is_empty line); [reflexivity|].
  unfold forwarded. rewrite flat_map_app. cbn [flat_map app].
  fold (forwarded (stderr_monitor_from file_ok (S i) rest)). rewrite IH.
  destruct (stderr_marker line && file_ok i); reflexivity.
Qed.

Lemma monitor_filed (file_ok : nat -> bool) (always : bool) :
  (forall i, file_ok i = always) ->
  forall reads i,
  filed (stderr_monitor_from file_ok i reads)
  = if always then List.filter stderr_marker (until_eof reads) else [].
Proof.
  intros Hok. induction reads as [|line rest IH]; intros i.
  { destruct always; reflexivity. }
  cbn [stderr_monitor_from until_eof].
  destruct (Text.is_empty line); [destruct always; reflexivity|].
  unfold filed. rewrite flat_map_app. cbn [flat_map app].
  fold (filed (stderr_monitor_from file_ok (S i) rest)). rewrite IH, Hok.
  cbn [List.filter]. destruct (stderr_marker line), always; reflexivity.
Qed.

(** X18.  The filter is transparent.  Every line read before the end of
    the input is written to the standard error stream, unchanged, once
    and in order, whether or not the error file can be written; nothing
    is forwarded after the first empty read.  When the error file can be
    written it gets one record, in order, for each forwarded line that
    contains "Heartbeat failed" or "用户可能退出", and for no other; when
    it cannot, the failure is swallowed and only the file stays empty. *)
Theorem stderr_monitor_is_transparent (file_ok : nat -> bool) (reads : list string) :
  forwarded (stderr_monitor file_ok reads) = until_eof reads
  /\ ((forall i, file_ok i = true) ->
        filed (stderr_monitor file_ok reads)
        = List.filter stderr_marker (until_eof reads))
  /\ ((forall i, file_ok i = false) -> filed (stderr_monitor file_ok reads) = []).
Proof.
  unfold stderr_monitor. split; [apply monitor_forwarded|].
  split; intros Hok.
  - apply (monitor_filed file_ok true Hok).
  - apply (monitor_filed file_ok false Hok).
Qed.

Lemma stderr_monitor_is_transparent_witness :
  (forall i : nat, (fun _ => true) i = true)
  /\ filed (stderr_monitor (fun _ => true)
              ["INFO start"; "ERROR Heartbeat failed for wxid wxid_a"; ""; "late"])
     = List.filter stderr_marker
         (until_eof ["INFO start"; "ERROR Heartbeat failed for wxid wxid_a"; ""; "late"]).
Proof.
  split; [reflexivity|].
  exact (proj1 (proj2 (stderr_monitor_is_transparent (fun _ => true)
                         ["INFO start"; "ERROR Heartbeat failed for wxid wxid_a";
                          ""; "late"])) (fun _ => eq_refl)).
Defined.

(** ** The heartbeat test command *)









Lemma lower_char_twice (c : ascii) :
  Text.lower_char (Text.lower_char c) = Text.lower_char c.
Proof. destruct c as [[] [] [] [] [] [] [] []]; reflexivity. Qed.



(** ** The receiver of a test notice *)

(** X21.  The receiver registered with an entity is used by [sms_test]
    only.  An administrator's [sms_test] with a primary entity set posts
    one test notice, with the token and the channel of the plugin; the
    request names a receiver exactly when the channel is wechat and the
    registry holds a receiver for the primary entity that is not empty,
    and then it names that one. *)
Theorem test_notice_receiver (E : Env) (b : string) (m : message) (w : World) :
  enable (self w) = true ->
  Text.startswith "sms_test" (Text.strip (Content m)) = true ->
  is_admin E (SenderWxid m) = true ->
  current_wxid (self w) <> "" ->
  exists p r reply,
    trace (snd (handle_test_command E b m w))
    = trace w ++ [Post TestNotice p r; SendText (FromWxid m) reply]
    /\ p_token p = pushplus_token (self w)
    /\ p_channel p = pushplus_channel (self w)
    /\ forall to,
         p_to p = Some to
         <-> Dict.get (current_wxid (self w)) (users (self w)) = Some to
             /\ to <> "" /\ pushplus_channel (self w) = "wechat".
Proof.
  intros Hen Hcmd Hadm Hcur.
  pose proof (test_command_run E b m w Hen Hcmd Hadm) as Hrun. cbv zeta in Hrun.
  rewrite (token_present _ Hcur) in Hrun.
  rewrite (Hrun Hcur). cbn [snd trace with_trace].
  eexists _, _, _. split; [reflexivity|].
  split; [reflexivity|]. split; [reflexivity|].
  intros to. unfold test_payload.
  cbn [p_to users set_bot current_wxid pushplus_channel].
  destruct (Dict.get (current_wxid (self w)) (users (self w))) as [v|]; cbn [from_option id].
  - destruct (Text.is_empty v) eqn:Hv; cbn [negb andb].
    + split; [discriminate|]. intros (Hget & Hne & _). injection Hget as ->.
      destruct to; [contradiction|discriminate].
    + destruct (String.eqb_spec (pushplus_channel (self w)) "wechat") as [Hch|Hch].
      * split.
        -- intros H. injection H as <-. repeat split; try assumption.
           intros ->. discriminate.
        -- intros (Hget & _). exact Hget.
      * split; [discriminate|]. intros (_ & _ & H). contradiction.
  - cbn [from_option id Text.is_empty negb andb]. split; [discriminate|]. intros (H & _). discriminate.
Qed.

Lemma test_notice_receiver_witness :
  exists p r reply,
    trace (snd (handle_test_command (env_of push_ok ["wxid_admin"]) "bot"
                  (chat "wxid_admin" "sms_test") world_a))
    = trace world_a ++ [Post TestNotice p r; SendText "wxid_admin" reply]
    /\ p_token p = pushplus_token (self world_a)
    /\ p_channel p = pushplus_channel (self world_a)
    /\ forall to,
         p_to p = Some to
         <-> Dict.get (current_wxid (self world_a)) (users (self world_a)) = Some to
             /\ to <> "" /\ pushplus_channel (self world_a) = "wechat".
Proof.
  apply (test_notice_receiver (env_of push_ok ["wxid_admin"]) "bot"
           (chat "wxid_admin" "sms_test") world_a);
    [reflexivity|reflexivity|reflexivity|discriminate].
Defined.

(** ** The enabled plugin has a token *)

Lemma load_config_armed (E : Env) (s : Plugin) : armed (load_config E s).
Proof.
  unfold armed, load_config. destruct (config E) as [| |c]; cbn [enable pushplus_token];
    try discriminate.
  intros H. apply andb_true_iff in H as [_ H].
  destruct (c_token c); [discriminate|discriminate].
Qed.

Ltac armed_done Ha :=
  cbn [self with_self snd ret];
  first [ exact Ha
        | apply load_config_armed
        | unfold armed in *; cbn in *; first [exact Ha | discriminate | congruence] ].

Lemma handler_armed (c : command) (E : Env) (b : string) (m : message) (w : World) :
  armed (self w) -> armed (self (snd (handler c E b m w))).
Proof.
  intros Ha. destruct c; cbn [handler].
  - unfold handle_monitor_command. enter_handler. split_tests; armed_done Ha.
  - unfold handle_unmonitor_command. enter_handler. split_tests; armed_done Ha.
  - unfold handle_status_command. enter_handler. split_tests; armed_done Ha.
  - unfold handle_reload_command. enter_handler.
    pose proof (load_config_armed E (set_bot (Some b) (self w))) as Hl.
    set (s1 := load_config E (set_bot (Some b) (self w))) in *.
    split_tests; cbn [self with_self snd ret set_check_task];
      first [exact Ha | exact Hl | unfold armed in *; cbn in *; assumption].
  - unfold handle_test_command, send_test_message. enter_handler.
    split_tests; armed_done Ha.
  - unfold handle_channel_command. enter_handler. split_tests; armed_done Ha.
  - unfold handle_set_wxid_command, send_test_message. enter_handler.
    destruct (config E); split_tests; armed_done Ha.
  - unfold handle_message_template_command. enter_handler. split_tests; armed_done Ha.
Qed.

Lemma handlers_armed (E : Env) (b : string) (m : message) :
  forall (cs : list command) (o : outcome) (w : World),
  armed (self w) ->
  armed (self (snd (fold_left
                      (fun acc c =>
                         match acc with
                         | (Returned, w') => handler c E b m w'
                         | stopped => stopped
                         end) cs (o, w)))).
Proof.
  induction cs as [|c cs IH]; intros o w Ha; [exact Ha|].
  cbn [fold_left]. destruct o.
  - pose proof (handler_armed c E b m w Ha) as H.
    destruct (handler c E b m w) as [o' w']. cbn [snd] in H. apply IH, H.
  - apply IH, Ha.
Qed.

Lemma step_armed (E : Env) (now : Z) (i : input) (w : World) :
  armed (self w) -> armed (self (step E now i w)).
Proof.
  intros Ha. destruct i as [b m|x|r]; cbn [step].
  - assert (H0 : armed (self (snd (capture_bot_id b m w)))).
    { unfold capture_bot_id. enter_handler. split_tests; armed_done Ha. }
    destruct (capture_bot_id b m w) as [? w0]. cbn [snd] in H0.
    assert (H1 : armed (self (snd (capture_error_messages E b m w0)))).
    { destruct (capture_frame E b m w0) as (_ & H & _).
      destruct (extends_self _ _ _ H) as [-> _]. exact H0. }
    destruct (capture_error_messages E b m w0) as [? w1]. cbn [snd] in H1.
    apply handlers_armed, H1.
  - destruct (callback_posts E now x w) as [-> _]. exact Ha.
  - unfold api_heartbeat_iteration. destruct (api_status r); cbn [snd ret];
      try exact Ha.
    destruct (notify_users_frame E now (Dict.keys (users (self w))) w) as [-> _].
    exact Ha.
Qed.

Lemma run_armed (E : Env) :
  forall (inputs : list (Z * input)) (w : World),
  armed (self w) -> armed (self (run E inputs w)).
Proof.
  induction inputs as [|[now i] rest IH]; intros w Ha; [exact Ha|].
  cbn [run]. apply IH, step_armed, Ha.
Qed.

(** X22.  An enabled plugin has a token.  [_load_config] leaves the
    plugin enabled only with a token that is not empty, and no text
    message, log line or status poll breaks this: after any sequence of
    them the plugin is either switched off or has a token, so that on the
    enabled plugin the delivery client never gives up for want of one. *)
Theorem enabled_plugin_has_token
    (E0 E : Env) (s0 : Plugin) (inputs : list (Z * input)) (w : World) :
  self w = load_config E0 s0 ->
  enable (self (run E inputs w)) = true ->
  pushplus_token (self (run E inputs w)) <> ""
  /\ forall wxid to,
       send_pushplus_notification E wxid to (run E inputs w)
       = (let w' := run E inputs w in
          let '(ok, evs) :=
            push_attempts (fun i => push_api E (count_posts (trace w') + i)%nat)
              (notification_payload (self w') wxid)
              (retry_times (self w')) (retry_interval (self w'))
              (range (retry_times (self w'))) in
          (ok, with_trace (trace w' ++ evs) w')).
Proof.
  intros Hload Hen.
  assert (Ha : armed (self w)) by (rewrite Hload; apply load_config_armed).
  pose proof (run_armed E inputs w Ha Hen) as Htok.
  split; [exact Htok|]. intros wxid to.
  unfold send_pushplus_notification. rewrite (token_present _ Htok). reflexivity.
Qed.

Lemma enabled_plugin_has_token_witness :
  let w := with_self (load_config (env_loaded push_ok []) plugin_a) world_a in
  let inputs := [(0, StatusPoll (PollHttp 500 "")); (5, LogLine "wxid_a")] in
  enable (self (run (env_loaded push_ok []) inputs w)) = true
  /\ pushplus_token (self (run (env_loaded push_ok []) inputs w)) <> "".
Proof.
  cbv zeta. split; [reflexivity|].
  exact (proj1 (enabled_plugin_has_token (env_loaded push_ok []) (env_loaded push_ok [])
                  plugin_a
                  [(0, StatusPoll (PollHttp 500 "")); (5, LogLine "wxid_a")]
                  (with_self (load_config (env_loaded push_ok []) plugin_a) world_a)
                  eq_refl eq_refl)).
Defined.

(** ** The log handler *)





